(** * Stock valuation dashboard: the valuation engine of [stock_valuation_app.py]

    A shallow embedding of the fundamentals getters, the discount-rate
    derivation and the two valuation functions of the Streamlit script,
    with the properties its specification states about them.

    Modelling conventions.
    - Python numbers (int and float alike) are exact rationals [Qc]: the
      arithmetic is the one the formulas denote, without binary rounding,
      overflow or NaN.  Division by zero raises [ZeroDivisionError], as it
      does in Python for both ints and floats.  Outside the model are
      therefore: a NaN or infinite entry of the provider (a NaN passes the
      test [x <= 0]), the [OverflowError] of [**] on huge floats, underflow
      to 0.0, and the rounding of [round] and of comparisons on doubles.
    - A value read from the provider's [info] dict is a [pyval]: [None], a
      number, or a string (standing for any malformed, non-numeric entry).
    - [yf.Ticker(ticker).info] is a [provider]: the dict, or an exception.
      Every function takes the provider's answer in place of the ticker.
    - Code runs in the monad [M]: the Streamlit messages the code has written
      and either a returned value or a raised exception. *)

From Stdlib Require Import QArith Qcanon Qround.
From stdpp Require Import gmap strings list fin_maps numbers.

Local Open Scope Qc_scope.

(** ** Exceptions, user-interface messages and the monad *)

Inductive exn : Set :=
  | TypeError
  | ZeroDivisionError
  | IndexError
  | ProviderError.

(** [st.warning(text)] and [st.error(text: e)]; the text is kept without the
    ticker, the exception without its message. *)
Inductive ui_msg : Set :=
  | StWarning (text : string)
  | StError (text : string) (e : exn).

Inductive outcome (A : Type) : Type :=
  | Returned (a : A)
  | Raised (e : exn).
Arguments Returned {A} a.
Arguments Raised {A} e.

Definition M (A : Type) : Type := list ui_msg * outcome A.

Definition M_ret {A} (a : A) : M A := ([], Returned a).

Definition M_bind {A B} (f : A → M B) (m : M A) : M B :=
  match m with
  | (w, Returned a) => let '(w', r) := f a in (w ++ w', r)
  | (w, Raised e) => (w, Raised e)
  end.

#[global] Instance M_mret : MRet M := @M_ret.
#[global] Instance M_mbind : MBind M := @M_bind.

Definition raise {A} (e : exn) : M A := ([], Raised e).

Definition tell (msg : ui_msg) : M unit := ([msg], Returned tt).

(** [try: body  except Exception as e: handler e]. *)
Definition try_except {A} (body : M A) (handler : exn → M A) : M A :=
  match body with
  | (w, Returned a) => (w, Returned a)
  | (w, Raised e) => let '(w', r) := handler e in (w ++ w', r)
  end.

(** [try: body  except: pass] followed by [rest]: [body] yields [Some a] when
    it executes a [return a], [None] when it runs to its end; an exception is
    swallowed, and in both of the latter cases [rest] runs. *)
Definition try_pass {A} (body : M (option A)) (rest : M A) : M A :=
  match body with
  | (w, Returned (Some a)) => (w, Returned a)
  | (w, Returned None) | (w, Raised _) => let '(w', r) := rest in (w ++ w', r)
  end.

(** ** Python values *)

Inductive pyval : Set :=
  | VNone
  | VNum (q : Qc)
  | VStr (s : string).

#[global] Instance pyval_eq_dec : EqDecision pyval.
Proof. solve_decision. Defined.

#[global] Instance exn_eq_dec : EqDecision exn.
Proof. solve_decision. Defined.

#[global] Instance ui_msg_eq_dec : EqDecision ui_msg.
Proof. solve_decision. Defined.

#[global] Instance outcome_eq_dec `{EqDecision A} : EqDecision (outcome A).
Proof. solve_decision. Defined.

(** The provider's answer to [yf.Ticker(ticker).info]. *)
Definition provider : Type := outcome (gmap string pyval).

Definition fetch (yf : provider) : M (gmap string pyval) := ([], yf).

(** [info.get(key, dflt)]. *)
Definition dict_get (info : gmap string pyval) (key : string) (dflt : pyval) : pyval :=
  default dflt (info !! key).

(** Truth value of an object in a condition. *)
Definition truthy (v : pyval) : bool :=
  match v with
  | VNone => false
  | VNum q => bool_decide (q ≠ 0)
  | VStr s => bool_decide (s ≠ EmptyString)
  end.

(** [v > c] and [v <= c] for a number [c]: ordering [None] or a string
    against a number raises [TypeError]. *)
Definition py_gt (v : pyval) (c : Qc) : M bool :=
  match v with
  | VNum q => mret (bool_decide (c < q))
  | _ => raise TypeError
  end.

Definition py_le (v : pyval) (c : Qc) : M bool :=
  match v with
  | VNum q => mret (bool_decide (q ≤ c))
  | _ => raise TypeError
  end.

(** [v and v > 0]: the comparison runs only when [v] is truthy. *)
Definition truthy_and_gt0 (v : pyval) : M bool :=
  if truthy v then py_gt v 0 else mret false.

(** [v is None or v <= 0]. *)
Definition is_none_or_le0 (v : pyval) : M bool :=
  match v with
  | VNone => mret true
  | _ => py_le v 0
  end.

(** [a + b]: numbers add, strings concatenate, anything else is a
    [TypeError]. *)
Definition py_add (a b : pyval) : M pyval :=
  match a, b with
  | VNum x, VNum y => mret (VNum (x + y))
  | VStr s, VStr t => mret (VStr (s ++ t))
  | _, _ => raise TypeError
  end.

(** A value used as the operand of [*], [/], [**] or of [+] with a number:
    the number itself, [TypeError] for [None] and for a string. *)
Definition as_number (v : pyval) : M Qc :=
  match v with
  | VNum q => mret q
  | _ => raise TypeError
  end.

(** [x / y] on numbers. *)
Definition num_div (x y : Qc) : M Qc :=
  if decide (y = 0) then raise ZeroDivisionError else mret (x / y).

(** [l[i]] for an index [i >= 0], and [l[-1]], which is [l[len(l) - 1]]. *)
Definition py_index {A} (l : list A) (i : nat) : M A :=
  match l !! i with
  | Some x => mret x
  | None => raise IndexError
  end.

Definition py_last {A} (l : list A) : M A :=
  match l !! Nat.pred (length l) with
  | Some x => mret x
  | None => raise IndexError
  end.

(** [sum(l)]: left to right from 0. *)
Definition py_sum (l : list Qc) : Qc := foldl Qcplus 0 l.

(** [enumerate(l)]. *)
Definition enumerate {A} (l : list A) : list (nat * A) := zip (seq 0 (length l)) l.

(** [round(x, 2)]: to the nearest multiple of 1/100, a tie going to the even
    multiple. *)
Definition round_half_even (x : Qc) : Z :=
  let f := Qfloor x in
  let d := x - Qc_of_Z f in
  if decide (d < Q2Qc 0.5) then f
  else if decide (Q2Qc 0.5 < d) then (f + 1)%Z
  else if Z.even f then f else (f + 1)%Z.

Definition round2 (x : Qc) : Qc := Qc_of_Z (round_half_even (x * Q2Qc 100)) / Q2Qc 100.

(** ** Constants *)

Definition TERMINAL_GROWTH_RATE : Qc := Q2Qc 0.04.
Definition FORECAST_YEARS : nat := 20.
Definition RISK_FREE_RATE : Qc := Q2Qc 0.045.
Definition MARKET_RISK_PREMIUM : Qc := Q2Qc 0.025.

(** ** Utility functions *)

Definition get_growth_rate (yf : provider) : M (pyval * string) :=
  try_pass
    (info ← fetch yf;
     let growth := dict_get info "earningsQuarterlyGrowth" VNone in
     c ← truthy_and_gt0 growth;
     if c : bool then mret (Some (growth, "Yahoo Finance"%string)) else mret None)
    (mret (VNum (Q2Qc 0.10), "Default"%string)).

Definition get_eps (yf : provider) : M (pyval * string) :=
  try_pass
    (info ← fetch yf;
     let eps := dict_get info "trailingEps" VNone in
     c ← truthy_and_gt0 eps;
     if c : bool then mret (Some (eps, "Yahoo Finance"%string)) else mret None)
    (mret (VNone, "Unavailable"%string)).

Definition get_beta (yf : provider) : M pyval :=
  try_pass
    (info ← fetch yf;
     let beta := dict_get info "beta" VNone in
     c ← truthy_and_gt0 beta;
     if c : bool then mret (Some beta) else mret None)
    (mret (VNum 1)).

(** Line 161 of the script: [RISK_FREE_RATE + beta * MARKET_RISK_PREMIUM] with
    [beta = get_beta(ticker)]. *)
Definition calculated_discount_rate (yf : provider) : M Qc :=
  beta ← get_beta yf;
  b ← as_number beta;
  mret (RISK_FREE_RATE + b * MARKET_RISK_PREMIUM).

(** ** Valuation methods *)

(** *** EPS-based valuation, [calculate_eps_valuation] *)

(** Line 81: the list [growths]. *)
Definition eps_growths (growth_rate : Qc) : list Qc :=
  [growth_rate; growth_rate; growth_rate / 2; growth_rate / 2; TERMINAL_GROWTH_RATE].

(** Line 82: the comprehension over [range(FORECAST_YEARS)]. *)
Definition eps_projected (eps growth_rate : Qc) : M (list Qc) :=
  let growths := eps_growths growth_rate in
  mapM (λ i, g ← py_index growths i; mret (eps * (1 + g) ^ (i + 1)))
       (seq 0 FORECAST_YEARS).

(** Line 83: the comprehension over [enumerate(projected)]. *)
Definition eps_discounted (projected : list Qc) (discount_rate : Qc) : M (list Qc) :=
  mapM (λ '(i, val), num_div val ((1 + discount_rate) ^ (i + 1)))
       (enumerate projected).

(** Line 85, from the value of [projected[-1]]. *)
Definition eps_terminal (last_projected discount_rate : Qc) : M Qc :=
  num_div (last_projected * (1 + TERMINAL_GROWTH_RATE))
          (discount_rate - TERMINAL_GROWTH_RATE).

(** Line 86. *)
Definition eps_discounted_terminal (terminal discount_rate : Qc) : M Qc :=
  num_div terminal ((1 + discount_rate) ^ FORECAST_YEARS).

(** Lines 88 to 92: the value of [capped_terminal], when the cap applies, and
    of [intrinsic] before rounding. *)
Definition eps_intrinsic (discounted : list Qc) (discounted_terminal : Qc)
    : M (option Qc * Qc) :=
  let intrinsic := py_sum discounted + discounted_terminal in
  ratio ← num_div discounted_terminal intrinsic;
  if decide (Q2Qc 0.6 < ratio) then
    let capped_terminal := Q2Qc 0.6 * intrinsic in
    let intrinsic := py_sum discounted + capped_terminal in
    mret (Some capped_terminal, intrinsic)
  else mret (None, intrinsic).

(** The body of the [try] block, lines 76 to 94. *)
Definition eps_valuation_body (yf : provider) (discount_rate growth_rate : Qc)
    : M (option Qc) :=
  '(eps, source) ← get_eps yf;
  c ← is_none_or_le0 eps;
  if c : bool then
    tell (StWarning "EPS unavailable");; mret None
  else
    eps ← as_number eps;
    projected ← eps_projected eps growth_rate;
    discounted ← eps_discounted projected discount_rate;
    last_projected ← py_last projected;
    terminal ← eps_terminal last_projected discount_rate;
    discounted_terminal ← eps_discounted_terminal terminal discount_rate;
    '(capped_terminal, intrinsic) ← eps_intrinsic discounted discounted_terminal;
    mret (Some (round2 intrinsic)).

Definition calculate_eps_valuation (yf : provider) (discount_rate growth_rate : Qc)
    : M (option Qc) :=
  try_except (eps_valuation_body yf discount_rate growth_rate)
    (λ e, tell (StError "EPS valuation failed" e);; mret None).

(** *** OCF-based valuation, [calculate_ocf_based_intrinsic_value] *)

(** The function returns [(None, None, None)], modelled by [None], or the
    triple [(round(final_value, 2), projected_ocf, discounted_ocf)]. *)
Definition ocf_result : Type := option (Qc * list Qc * list Qc).

Section ocf_projection.
Variables growth_1_5 growth_6_10 growth_11_20 ocf discount_rate : Qc.

(** Lines 117 to 122. *)
Definition ocf_growth (year : nat) : Qc :=
  if decide (year ≤ 5)%nat then growth_1_5
  else if decide (year ≤ 10)%nat then growth_6_10
  else growth_11_20.

(** Lines 116 to 129: the loop over the years still to run, with the two
    lists built so far. *)
Fixpoint ocf_loop (years : list nat) (projected_ocf discounted_ocf : list Qc)
    : M (list Qc * list Qc) :=
  match years with
  | [] => mret (projected_ocf, discounted_ocf)
  | year :: years =>
      let growth := ocf_growth year in
      let projected := ocf * (1 + growth) ^ year in
      discount_factor ← num_div 1 ((1 + discount_rate) ^ year);
      let discounted := projected * discount_factor in
      ocf_loop years (projected_ocf ++ [projected]) (discounted_ocf ++ [discounted])
  end.
End ocf_projection.

(** Lines 131 to 142: [final_value] from the discounted list. *)
Definition ocf_final_value (info : gmap string pyval) (shares : Qc)
    (discounted_ocf : list Qc) : M Qc :=
  let total_value := py_sum discounted_ocf in
  intrinsic_per_share ← num_div total_value shares;
  let cash := dict_get info "cash" (VNum 0) in
  let short_term_investments := dict_get info "shortTermInvestments" (VNum 0) in
  let short_term_debt := dict_get info "shortTermDebt" (VNum 0) in
  let long_term_debt := dict_get info "longTermDebt" (VNum 0) in
  liquid ← py_add cash short_term_investments;
  liquid ← as_number liquid;
  cash_per_share ← num_div liquid shares;
  debt ← py_add short_term_debt long_term_debt;
  debt ← as_number debt;
  debt_per_share ← num_div debt shares;
  mret (intrinsic_per_share + cash_per_share - debt_per_share).

(** The body of the [try] block, lines 101 to 144. *)
Definition ocf_valuation_body (yf : provider) (discount_rate : Qc) : M ocf_result :=
  info ← fetch yf;
  let growth_1_5 := dict_get info "earningsQuarterlyGrowth" (VNum (Q2Qc 0.10)) in
  growth_1_5 ← as_number growth_1_5;
  let growth_6_10 := growth_1_5 / 2 in
  let growth_11_20 := TERMINAL_GROWTH_RATE in
  let ocf := dict_get info "operatingCashflow" VNone in
  let shares := dict_get info "sharesOutstanding" VNone in
  c ← is_none_or_le0 ocf;
  c ← (if c : bool then mret true else is_none_or_le0 shares);
  if c : bool then mret None
  else
    ocf ← as_number ocf;
    shares ← as_number shares;
    '(projected_ocf, discounted_ocf) ←
      ocf_loop growth_1_5 growth_6_10 growth_11_20 ocf discount_rate (seq 1 20) [] [];
    final_value ← ocf_final_value info shares discounted_ocf;
    mret (Some (round2 final_value, projected_ocf, discounted_ocf)).

Definition calculate_ocf_based_intrinsic_value (yf : provider) (discount_rate : Qc)
    : M ocf_result :=
  try_except (ocf_valuation_body yf discount_rate)
    (λ e, tell (StError "OCF-based valuation failed" e);; mret None).


(** ** Data preview, [preview_data] *)

(** What the script shows besides warnings and errors: [st.subheader(text)]
    and [st.write(pd.DataFrame(rows, columns=columns))], recorded with the
    rows and column names handed to the data frame (how pandas renders them
    is not modelled).  Texts are kept without their leading emoji. *)
Inductive ui_event : Type :=
  | UiMessage (msg : ui_msg)
  | StSubheader (text : string)
  | StWriteTable (columns : list string) (rows : list (string * pyval)).

(** Code that shows such events, returns or raises. *)
Definition U (A : Type) : Type := list ui_event * outcome A.

Definition U_ret {A} (a : A) : U A := ([], Returned a).

Definition U_bind {A B} (f : A → U B) (m : U A) : U B :=
  match m with
  | (w, Returned a) => let '(w', r) := f a in (w ++ w', r)
  | (w, Raised e) => (w, Raised e)
  end.

#[global] Instance U_mret : MRet U := @U_ret.
#[global] Instance U_mbind : MBind U := @U_bind.

Definition show (ev : ui_event) : U unit := ([ev], Returned tt).

(** [yf.Ticker(ticker).info] outside of any [try]. *)
Definition fetch_uncaught (yf : provider) : U (gmap string pyval) := ([], yf).

(** Lines 52 to 68.  The dict [data] is the list of its items in insertion
    order; its six keys are distinct. *)
Definition preview_data (yf : provider) : U (list (string * pyval)) :=
  info ← fetch_uncaught yf;
  let data :=
    [("EPS (ttm)", dict_get info "trailingEps" VNone);
     ("Net Income to Common", dict_get info "netIncomeToCommon" VNone);
     ("Operating Cash Flow", dict_get info "operatingCashflow" VNone);
     ("Capital Expenditures", dict_get info "capitalExpenditures" (VNum 0));
     ("Shares Outstanding", dict_get info "sharesOutstanding" VNone);
     ("Beta", dict_get info "beta" VNone)]%string in
  show (StSubheader "Data Preview");;
  show (StWriteTable ["Metric"; "Value"]%string data);;
  mret data.

(** The keys [calculate_ocf_based_intrinsic_value] reads. *)
Definition ocf_keys : list string :=
  ["earningsQuarterlyGrowth"; "operatingCashflow"; "sharesOutstanding";
   "cash"; "shortTermInvestments"; "shortTermDebt"; "longTermDebt"]%string.

(** ** Sample provider data *)

(** A company with an operating cash flow of 100, 10 shares, 30 in cash and
    10 of short-term debt; the other entries are absent. *)
Definition info_sample : gmap string pyval :=
  <["operatingCashflow" := VNum (Q2Qc 100)]>
    (<["sharesOutstanding" := VNum (Q2Qc 10)]>
       (<["cash" := VNum (Q2Qc 30)]>
          (<["shortTermDebt" := VNum (Q2Qc 10)]> ∅))).

(** The same company reporting a quarterly earnings growth of -50%. *)
Definition info_negative_growth : gmap string pyval :=
  <["earningsQuarterlyGrowth" := VNum (Q2Qc (-0.5))]> info_sample.

(** The same company with an explicit [None] under ["cash"]. *)
Definition info_null_cash : gmap string pyval :=
  <["cash" := VNone]> info_sample.

(** The same company without its share count. *)
Definition info_no_shares : gmap string pyval :=
  delete "sharesOutstanding" info_sample.


(** The keys of the balance-sheet entries read with a default of 0. *)
Definition balance_sheet_keys : list string :=
  ["cash"; "shortTermInvestments"; "shortTermDebt"; "longTermDebt"]%string.

(** * Properties *)

#[local] Arguments Qcplus : simpl never.
#[local] Arguments Qcmult : simpl never.
#[local] Arguments Qcminus : simpl never.
#[local] Arguments Qcdiv : simpl never.
#[local] Arguments Qcopp : simpl never.
#[local] Arguments Qcinv : simpl never.
#[local] Arguments Qcpower : simpl never.
#[local] Arguments Q2Qc : simpl never.
#[local] Arguments round2 : simpl never.

(** ** The monad *)

Lemma bind_ret {A B} (a : A) (f : A → M B) : (mret a ≫= f) = f a.
Proof. unfold mbind, M_mbind, mret, M_mret, M_bind, M_ret. by destruct (f a). Qed.

Lemma bind_raise {A B} (e : exn) (f : A → M B) : (raise e ≫= f) = raise e.
Proof. reflexivity. Qed.

Lemma bind_fetch_raised {B} (e : exn) (f : gmap string pyval → M B) :
  (fetch (Raised e) ≫= f) = raise e.
Proof. reflexivity. Qed.

Lemma bind_fetch_returned {B} (info : gmap string pyval) (f : gmap string pyval → M B) :
  (fetch (Returned info) ≫= f) = f info.
Proof. apply bind_ret. Qed.

Lemma try_pass_ret_some {A} (a : A) (rest : M A) : try_pass (mret (Some a)) rest = mret a.
Proof. reflexivity. Qed.

Lemma try_pass_ret_none {A} (rest : M A) : try_pass (mret None) rest = rest.
Proof. unfold try_pass, mret, M_mret, M_ret. by destruct rest. Qed.

Lemma try_pass_raise {A} (e : exn) (rest : M A) : try_pass (raise e) rest = rest.
Proof. unfold try_pass, raise. by destruct rest. Qed.

Lemma try_except_ret {A} (a : A) (h : exn → M A) : try_except (mret a) h = mret a.
Proof. reflexivity. Qed.

Lemma try_except_raise {A} (e : exn) (h : exn → M A) : try_except (raise e) h = h e.
Proof. unfold try_except, raise. by destruct (h e). Qed.

(** A [try] whose handler returns never raises. *)
Lemma try_except_returns {A} (body : M A) (h : exn → M A) :
  (∀ e, ∃ w a, h e = (w, Returned a)) →
  ∃ w a, try_except body h = (w, Returned a).
Proof.
  intros Hh. destruct body as [w [a|e]]; simpl; [by eauto|].
  destruct (Hh e) as (w' & a & ->). eauto.
Qed.

Create Rewrite HintDb py.
#[local] Hint Rewrite @bind_ret @bind_raise @bind_fetch_raised @bind_fetch_returned
  @try_pass_ret_some @try_pass_ret_none @try_pass_raise
  @try_except_ret @try_except_raise : py.

(** ** Arithmetic on [Qc] *)

Lemma Qcpower_nonzero (x : Qc) (n : nat) : x ≠ 0 → x ^ n ≠ 0.
Proof.
  intros Hx. induction n as [|n IH]; [done|].
  change (x ^ S n) with (x * x ^ n). intros H.
  by destruct (Qcmult_integral _ _ H).
Qed.

Lemma Qclt_nonzero (x : Qc) : 0 < x → x ≠ 0.
Proof. intros H ->. by apply (Qclt_not_eq 0 0). Qed.

Lemma Qc_nonzero_by_value (x : Qc) : this x ≠ this 0 → x ≠ 0.
Proof. by intros Hx ->. Qed.

Lemma num_div_nonzero (x y : Qc) : y ≠ 0 → num_div x y = mret (x / y).
Proof. intros Hy. unfold num_div. by rewrite decide_False. Qed.

Lemma num_div_zero (x : Qc) : num_div x 0 = raise ZeroDivisionError.
Proof. unfold num_div. by rewrite decide_True. Qed.

(** ** Values of the provider *)

Lemma truthy_and_gt0_pos (q : Qc) : 0 < q → truthy_and_gt0 (VNum q) = mret true.
Proof.
  intros Hq. unfold truthy_and_gt0, truthy, py_gt.
  rewrite bool_decide_eq_true_2 by by apply Qclt_nonzero.
  by rewrite bool_decide_eq_true_2.
Qed.

(** Whatever is not a strictly positive number fails the test [v and v > 0],
    by a false answer or by a [TypeError]. *)
Lemma truthy_and_gt0_other (v : pyval) :
  (∀ q, v = VNum q → ¬ 0 < q) →
  truthy_and_gt0 v = mret false ∨ truthy_and_gt0 v = raise TypeError.
Proof.
  intros Hv. unfold truthy_and_gt0. destruct v as [|q|s]; simpl.
  - by left.
  - case_bool_decide; [|by left]. left. unfold py_gt.
    rewrite bool_decide_eq_false_2; [done|]. by apply Hv.
  - case_bool_decide; [by right|by left].
Qed.

(** The growth resolver: a strictly positive provider value is used, with
    the provider as its source. *)
Lemma get_growth_rate_provider (info : gmap string pyval) (g : Qc) :
  info !! "earningsQuarterlyGrowth" = Some (VNum g) → 0 < g →
  get_growth_rate (Returned info) = mret (VNum g, "Yahoo Finance"%string).
Proof.
  intros Hg Hpos. unfold get_growth_rate. autorewrite with py.
  unfold dict_get. rewrite Hg. simpl default.
  rewrite truthy_and_gt0_pos by done. by autorewrite with py.
Qed.

(** The growth resolver: in every other case the rate is 0.10, tagged as the
    default. *)
Lemma get_growth_rate_default (yf : provider) :
  (∀ info g, yf = Returned info →
             info !! "earningsQuarterlyGrowth" = Some (VNum g) → ¬ 0 < g) →
  get_growth_rate yf = mret (VNum (Q2Qc 0.10), "Default"%string).
Proof.
  intros Hyf. unfold get_growth_rate. destruct yf as [info|e]; autorewrite with py; [|done].
  destruct (truthy_and_gt0_other (dict_get info "earningsQuarterlyGrowth" VNone)) as [-> | ->];
    autorewrite with py; try done.
  intros q Hq. apply (Hyf info q eq_refl). unfold dict_get in Hq.
  by destruct (info !! "earningsQuarterlyGrowth") as [v|]; simplify_eq/=.
Qed.

Lemma get_eps_provider (info : gmap string pyval) (eps : Qc) :
  info !! "trailingEps" = Some (VNum eps) → 0 < eps →
  get_eps (Returned info) = mret (VNum eps, "Yahoo Finance"%string).
Proof.
  intros He Hpos. unfold get_eps. autorewrite with py.
  unfold dict_get. rewrite He. simpl default.
  rewrite truthy_and_gt0_pos by done. by autorewrite with py.
Qed.

Lemma get_eps_unavailable (yf : provider) :
  (∀ info eps, yf = Returned info → info !! "trailingEps" = Some (VNum eps) → ¬ 0 < eps) →
  get_eps yf = mret (VNone, "Unavailable"%string).
Proof.
  intros Hyf. unfold get_eps. destruct yf as [info|e]; autorewrite with py; [|done].
  destruct (truthy_and_gt0_other (dict_get info "trailingEps" VNone)) as [-> | ->];
    autorewrite with py; try done.
  intros q Hq. apply (Hyf info q eq_refl). unfold dict_get in Hq.
  by destruct (info !! "trailingEps") as [v|]; simplify_eq/=.
Qed.

Lemma get_beta_provider (info : gmap string pyval) (beta : Qc) :
  info !! "beta" = Some (VNum beta) → 0 < beta →
  get_beta (Returned info) = mret (VNum beta).
Proof.
  intros Hb Hpos. unfold get_beta. autorewrite with py.
  unfold dict_get. rewrite Hb. simpl default.
  rewrite truthy_and_gt0_pos by done. by autorewrite with py.
Qed.

Lemma get_beta_default (yf : provider) :
  (∀ info beta, yf = Returned info → info !! "beta" = Some (VNum beta) → ¬ 0 < beta) →
  get_beta yf = mret (VNum 1).
Proof.
  intros Hyf. unfold get_beta. destruct yf as [info|e]; autorewrite with py; [|done].
  destruct (truthy_and_gt0_other (dict_get info "beta" VNone)) as [-> | ->];
    autorewrite with py; try done.
  intros q Hq. apply (Hyf info q eq_refl). unfold dict_get in Hq.
  by destruct (info !! "beta") as [v|]; simplify_eq/=.
Qed.

(** ** Discount rate *)

(** C8. The derived discount rate is [0.045 + beta * 0.025], where [beta] is
    the provider's value when the provider answers with a strictly positive
    number under the key ["beta"], and 1 in every other case: the key absent,
    [None], zero, negative, not a number, or the provider failing. *)
Theorem discount_rate_from_beta (yf : provider) :
  (∀ info beta, yf = Returned info → info !! "beta" = Some (VNum beta) → 0 < beta →
     calculated_discount_rate yf = ([], Returned (Q2Qc 0.045 + beta * Q2Qc 0.025))) ∧
  ((∀ info beta, yf = Returned info → info !! "beta" = Some (VNum beta) → ¬ 0 < beta) →
     calculated_discount_rate yf = ([], Returned (Q2Qc 0.045 + 1 * Q2Qc 0.025))).
Proof.
  unfold calculated_discount_rate. split.
  - intros info beta -> Hb Hpos. rewrite (get_beta_provider info beta) by done.
    by autorewrite with py.
  - intros Hother. rewrite get_beta_default by done. by autorewrite with py.
Qed.

Lemma discount_rate_from_beta_witness :
  calculated_discount_rate (Returned {["beta" := VNum (Q2Qc 1.2)]})
    = ([], Returned (Q2Qc 0.045 + Q2Qc 1.2 * Q2Qc 0.025)) ∧
  calculated_discount_rate (Returned {["beta" := VNum (Q2Qc (-0.3))]})
    = ([], Returned (Q2Qc 0.045 + 1 * Q2Qc 0.025)) ∧
  calculated_discount_rate (Raised ProviderError)
    = ([], Returned (Q2Qc 0.045 + 1 * Q2Qc 0.025)).
Proof.
  split; [|split].
  - apply (proj1 (discount_rate_from_beta _) _ (Q2Qc 1.2) eq_refl); reflexivity.
  - apply (proj2 (discount_rate_from_beta _)).
    intros info beta [= <-] Hb Hpos. vm_compute in Hb.
    injection Hb as <-. vm_compute in Hpos. discriminate.
  - apply (proj2 (discount_rate_from_beta _)). intros info beta [=].
Defined.

(** ** EPS-based valuation: the projection *)

(** The list of growth rates has five entries: indices 0 to 4 are in bounds,
    index 5 is not. *)
Lemma eps_growths_length (g : Qc) : length (eps_growths g) = 5%nat.
Proof. reflexivity. Qed.

Lemma eps_growths_index_5 (g : Qc) : py_index (eps_growths g) 5 = raise IndexError.
Proof. reflexivity. Qed.

(** Run over [range(5)] only, the comprehension of line 82 yields the five
    values the growth list provides for. *)
Lemma eps_projected_first_five (eps g : Qc) :
  mapM (λ i, x ← py_index (eps_growths g) i; mret (eps * (1 + x) ^ (i + 1))) (seq 0 5)
  = mret [eps * (1 + g) ^ 1; eps * (1 + g) ^ 2; eps * (1 + g / 2) ^ 3;
          eps * (1 + g / 2) ^ 4; eps * (1 + TERMINAL_GROWTH_RATE) ^ 5].
Proof. reflexivity. Qed.

(** Run over [range(FORECAST_YEARS)], it raises [IndexError] at index 5. *)
Lemma eps_projected_raises (eps g : Qc) : eps_projected eps g = raise IndexError.
Proof. reflexivity. Qed.

Lemma is_none_or_le0_pos (q : Qc) : 0 < q → is_none_or_le0 (VNum q) = mret false.
Proof.
  intros Hq. unfold is_none_or_le0, py_le.
  rewrite bool_decide_eq_false_2; [done|]. by apply Qclt_not_le.
Qed.

Lemma is_none_or_le0_nonpos (q : Qc) : q ≤ 0 → is_none_or_le0 (VNum q) = mret true.
Proof. intros Hq. unfold is_none_or_le0, py_le. by rewrite bool_decide_eq_true_2. Qed.

(** C1. With a strictly positive EPS the projection step does not produce 20
    values: indexing the five growth rates by the year index leaves the list
    at index 5, the comprehension raises [IndexError], and the valuation
    reports the failure and returns no result, whatever the growth and
    discount rates. *)
Theorem eps_projection_index_out_of_range (info : gmap string pyval) (eps r g : Qc) :
  info !! "trailingEps" = Some (VNum eps) → 0 < eps →
  eps_projected eps g = ([], Raised IndexError) ∧
  calculate_eps_valuation (Returned info) r g
    = ([StError "EPS valuation failed" IndexError], Returned None).
Proof.
  intros He Hpos. split; [apply eps_projected_raises|].
  unfold calculate_eps_valuation, eps_valuation_body.
  rewrite (get_eps_provider info eps) by done. autorewrite with py.
  rewrite is_none_or_le0_pos by done. autorewrite with py.
  unfold as_number. autorewrite with py.
  rewrite eps_projected_raises. by autorewrite with py.
Qed.

Lemma eps_projection_index_out_of_range_witness :
  eps_projected 1 (Q2Qc 0.10) = ([], Raised IndexError) ∧
  calculate_eps_valuation (Returned {["trailingEps" := VNum 1]}) (Q2Qc 0.10) (Q2Qc 0.10)
    = ([StError "EPS valuation failed" IndexError], Returned None).
Proof.
  apply (eps_projection_index_out_of_range {["trailingEps" := VNum 1]} 1); reflexivity.
Defined.

(** ** EPS-based valuation: discounting and the terminal value *)

(** A comprehension whose element expression never raises is a [map]. *)
Lemma mapM_total {A B} (f : A → M B) (g : A → B) (l : list A) :
  (∀ x, f x = mret (g x)) → mapM f l = mret (g <$> l).
Proof.
  intros Hf. induction l as [|x l IH]; [done|].
  simpl. rewrite Hf, bind_ret, IH, bind_ret. done.
Qed.

Lemma enumerate_lookup {A} (l : list A) (i : nat) (x : A) :
  l !! i = Some x → enumerate l !! i = Some (i, x).
Proof.
  intros Hx. unfold enumerate. rewrite lookup_zip_with, Hx.
  rewrite lookup_seq_lt by by eapply lookup_lt_Some. done.
Qed.

Lemma eps_discounted_total (projected : list Qc) (r : Qc) :
  1 + r ≠ 0 →
  eps_discounted projected r
  = mret ((λ '(i, val), val / (1 + r) ^ (i + 1)) <$> enumerate projected).
Proof.
  intros Hr. unfold eps_discounted.
  apply (mapM_total _ (λ '(i, val), val / (1 + r) ^ (i + 1))).
  intros [i val]. apply num_div_nonzero. by apply Qcpower_nonzero.
Qed.

Lemma above_terminal_growth_minus (r : Qc) :
  TERMINAL_GROWTH_RATE < r → r - TERMINAL_GROWTH_RATE ≠ 0.
Proof.
  intros Hlt Heq. apply (Qclt_not_eq _ _ Hlt).
  transitivity (r - TERMINAL_GROWTH_RATE + TERMINAL_GROWTH_RATE); [|ring].
  rewrite Heq. ring.
Qed.

Lemma below_terminal_growth_minus (r : Qc) :
  r < TERMINAL_GROWTH_RATE → r - TERMINAL_GROWTH_RATE ≠ 0.
Proof.
  intros Hlt Heq. apply (Qclt_not_eq _ _ Hlt).
  transitivity (r - TERMINAL_GROWTH_RATE + TERMINAL_GROWTH_RATE); [ring|].
  rewrite Heq. ring.
Qed.

Lemma above_terminal_growth_plus (r : Qc) :
  TERMINAL_GROWTH_RATE < r → 1 + r ≠ 0.
Proof.
  intros Hlt Heq.
  assert (r = - 1) as -> by (transitivity (1 + r - 1); [ring|rewrite Heq; ring]).
  vm_compute in Hlt. discriminate.
Qed.

(** Lines 83, 85 and 86 as expressions.  For a discount rate above 0.04 the
    terminal value of line 85 is [V * (1 + 0.04) / (r - 0.04)] for a last
    projected value [V], its discounted value is that quantity times
    [(1 + r) ^ -20], and the entry of the discounted list for a twentieth
    projected value carries the same factor.  No call of
    [calculate_eps_valuation] evaluates these lines: see
    [eps_valuation_body_raises] below. *)
Lemma eps_terminal_expression (V r : Qc) :
  TERMINAL_GROWTH_RATE < r →
  eps_terminal V r = ([], Returned (V * (1 + Q2Qc 0.04) / (r - Q2Qc 0.04))) ∧
  eps_discounted_terminal (V * (1 + Q2Qc 0.04) / (r - Q2Qc 0.04)) r
    = ([], Returned (V * (1 + Q2Qc 0.04) / (r - Q2Qc 0.04) * / (1 + r) ^ 20)) ∧
  (∀ projected val, projected !! 19%nat = Some val →
     ∃ discounted, eps_discounted projected r = ([], Returned discounted) ∧
                   discounted !! 19%nat = Some (val * / (1 + r) ^ 20)).
Proof.
  intros Hr. split; [|split].
  - unfold eps_terminal. by rewrite num_div_nonzero by by apply above_terminal_growth_minus.
  - unfold eps_discounted_terminal.
    rewrite num_div_nonzero; [done|].
    by apply Qcpower_nonzero, above_terminal_growth_plus.
  - intros projected val Hval. eexists. split.
    + by apply eps_discounted_total, above_terminal_growth_plus.
    + rewrite list_lookup_fmap, (enumerate_lookup _ _ _ Hval). done.
Qed.

(** For a discount rate of 0.10 the divisor is 0.06 and the factor 1.04. *)
Lemma eps_terminal_at_ten_percent (V : Qc) :
  eps_terminal V (Q2Qc 0.10) = ([], Returned (V * Q2Qc 1.04 / Q2Qc 0.06)).
Proof.
  unfold eps_terminal, TERMINAL_GROWTH_RATE.
  replace (1 + Q2Qc 0.04) with (Q2Qc 1.04) by (by apply Qc_is_canon).
  replace (Q2Qc 0.10 - Q2Qc 0.04) with (Q2Qc 0.06) by (by apply Qc_is_canon).
  by rewrite num_div_nonzero.
Qed.

(** At a discount rate equal to the terminal growth rate the division of
    line 85 is a division by zero. *)
Lemma eps_terminal_at_terminal_growth (V : Qc) :
  eps_terminal V TERMINAL_GROWTH_RATE = raise ZeroDivisionError.
Proof.
  unfold eps_terminal.
  replace (TERMINAL_GROWTH_RATE - TERMINAL_GROWTH_RATE) with (0 : Qc) by ring.
  apply num_div_zero.
Qed.

(** Below it the division goes through: nothing guards the sign of the
    divisor. *)
Lemma eps_terminal_below_terminal_growth (V r : Qc) :
  r < TERMINAL_GROWTH_RATE →
  eps_terminal V r
  = mret (V * (1 + TERMINAL_GROWTH_RATE) / (r - TERMINAL_GROWTH_RATE)).
Proof.
  intros Hr. unfold eps_terminal.
  by rewrite num_div_nonzero by by apply below_terminal_growth_minus.
Qed.

(** ** EPS-based valuation: the cap on the terminal value *)

(** The cap of lines 90 to 92, taken when the ratio exceeds 0.6. *)
Lemma eps_intrinsic_capped (discounted : list Qc) (dt : Qc) :
  py_sum discounted + dt ≠ 0 →
  Q2Qc 0.6 < dt / (py_sum discounted + dt) →
  eps_intrinsic discounted dt
  = mret (Some (Q2Qc 0.6 * (py_sum discounted + dt)),
          py_sum discounted + Q2Qc 0.6 * (py_sum discounted + dt)).
Proof.
  intros Hn Hratio. unfold eps_intrinsic.
  rewrite num_div_nonzero by done. autorewrite with py.
  by rewrite decide_True.
Qed.

(** Below the threshold the naive value stands. *)
Lemma eps_intrinsic_uncapped (discounted : list Qc) (dt : Qc) :
  py_sum discounted + dt ≠ 0 →
  ¬ Q2Qc 0.6 < dt / (py_sum discounted + dt) →
  eps_intrinsic discounted dt = mret (None, py_sum discounted + dt).
Proof.
  intros Hn Hratio. unfold eps_intrinsic.
  rewrite num_div_nonzero by done. autorewrite with py.
  by rewrite decide_False.
Qed.

(** Lines 90 to 92 as an expression, in exact arithmetic: the capped
    contribution is 0.6 times the value before the cap, and so never 0.6
    times the value after it.  No call of [calculate_eps_valuation] evaluates
    these lines. *)
Lemma eps_cap_never_fixed_point (discounted : list Qc) (dt C I : Qc) :
  py_sum discounted + dt ≠ 0 →
  Q2Qc 0.6 < dt / (py_sum discounted + dt) →
  eps_intrinsic discounted dt = ([], Returned (Some C, I)) →
  C ≠ Q2Qc 0.6 * I.
Proof.
  intros Hn Hratio Hcap. rewrite eps_intrinsic_capped in Hcap by done.
  injection Hcap as <- <-. intros Heq.
  apply (Qclt_not_eq _ _ Hratio). symmetry.
  set (s := py_sum discounted) in *.
  assert (Q2Qc 0.6 * (dt - Q2Qc 0.6 * (s + dt)) = 0) as H0.
  { transitivity (Q2Qc 0.6 * (s + dt) - Q2Qc 0.6 * (s + Q2Qc 0.6 * (s + dt))); [ring|].
    rewrite <- Heq. ring. }
  apply Qcmult_integral in H0 as [H0|H0].
  { apply (f_equal this) in H0. vm_compute in H0. discriminate. }
  assert (dt = Q2Qc 0.6 * (s + dt)) as Hdt.
  { transitivity (dt - Q2Qc 0.6 * (s + dt) + Q2Qc 0.6 * (s + dt)); [ring|].
    rewrite H0. ring. }
  rewrite Hdt at 1. by apply Qcdiv_mult_l.
Qed.

(** ** EPS-based valuation: what is never reached *)

(** With a strictly positive EPS the body of the [try] block stops at line 82
    with the [IndexError] of [growths[5]]: lines 83 to 94 do not run. *)
Lemma eps_valuation_body_raises (info : gmap string pyval) (eps r g : Qc) :
  info !! "trailingEps" = Some (VNum eps) → 0 < eps →
  eps_valuation_body (Returned info) r g = raise IndexError.
Proof.
  intros He Hpos. unfold eps_valuation_body.
  rewrite (get_eps_provider info eps) by done. autorewrite with py.
  rewrite is_none_or_le0_pos by done. autorewrite with py.
  unfold as_number. autorewrite with py.
  rewrite eps_projected_raises. by autorewrite with py.
Qed.




(** ** OCF-based valuation: the projection loop *)

Section ocf_loop_facts.
Variables g1 g2 g3 ocf r : Qc.
Hypothesis discount_base_nonzero : 1 + r ≠ 0.

Let projected_at (t : nat) : Qc := ocf * (1 + ocf_growth g1 g2 g3 t) ^ t.
Let discounted_at (t : nat) : Qc := projected_at t * / (1 + r) ^ t.

(** The loop never raises, appends one entry per year to each list, and
    computes each entry from the base, not from the entry before it. *)
Lemma ocf_loop_total (years : list nat) (P D : list Qc) :
  ocf_loop g1 g2 g3 ocf r years P D
  = mret (P ++ (projected_at <$> years), D ++ (discounted_at <$> years)).
Proof using discount_base_nonzero.
  revert P D. induction years as [|t years IH]; intros P D.
  - simpl. by rewrite !app_nil_r.
  - simpl. rewrite num_div_nonzero by by apply Qcpower_nonzero.
    rewrite bind_ret, IH, <- !app_assoc. simpl.
    unfold discounted_at, projected_at, Qcdiv. by rewrite Qcmult_1_l.
Qed.
End ocf_loop_facts.

(** ** OCF-based valuation: the per-share value *)

Lemma ocf_final_value_numbers (info : gmap string pyval) (shares : Qc)
    (D : list Qc) (cash sti std ltd : Qc) :
  shares ≠ 0 →
  dict_get info "cash" (VNum 0) = VNum cash →
  dict_get info "shortTermInvestments" (VNum 0) = VNum sti →
  dict_get info "shortTermDebt" (VNum 0) = VNum std →
  dict_get info "longTermDebt" (VNum 0) = VNum ltd →
  ocf_final_value info shares D
  = mret (py_sum D / shares + (cash + sti) / shares - (std + ltd) / shares).
Proof.
  intros Hs Hc Hi Hd Hl. unfold ocf_final_value.
  rewrite Hc, Hi, Hd, Hl. unfold py_add, as_number.
  by repeat first [rewrite bind_ret | rewrite num_div_nonzero by done].
Qed.

Lemma ocf_valuation_value (info : gmap string pyval)
    (ocf shares g r cash sti std ltd : Qc) :
  info !! "operatingCashflow" = Some (VNum ocf) → 0 < ocf →
  info !! "sharesOutstanding" = Some (VNum shares) → 0 < shares →
  dict_get info "earningsQuarterlyGrowth" (VNum (Q2Qc 0.10)) = VNum g →
  dict_get info "cash" (VNum 0) = VNum cash →
  dict_get info "shortTermInvestments" (VNum 0) = VNum sti →
  dict_get info "shortTermDebt" (VNum 0) = VNum std →
  dict_get info "longTermDebt" (VNum 0) = VNum ltd →
  1 + r ≠ 0 →
  let projected :=
    (λ t, ocf * (1 + ocf_growth g (g / 2) TERMINAL_GROWTH_RATE t) ^ t) <$> seq 1 20 in
  let discounted :=
    (λ t, ocf * (1 + ocf_growth g (g / 2) TERMINAL_GROWTH_RATE t) ^ t * / (1 + r) ^ t)
      <$> seq 1 20 in
  calculate_ocf_based_intrinsic_value (Returned info) r
  = mret (Some (round2 (py_sum discounted / shares + (cash + sti) / shares
                        - (std + ltd) / shares),
                projected, discounted)).
Proof.
  intros Hocf Hocf_pos Hsh Hsh_pos Hg Hc Hi Hd Hl Hr projected discounted.
  unfold calculate_ocf_based_intrinsic_value, ocf_valuation_body.
  rewrite bind_fetch_returned, Hg.
  unfold dict_get. rewrite Hocf, Hsh. simpl default.
  unfold as_number. rewrite !bind_ret.
  rewrite !is_none_or_le0_pos by done. rewrite !bind_ret.
  rewrite ocf_loop_total by done. rewrite bind_ret. simpl app.
  rewrite (ocf_final_value_numbers info shares _ cash sti std ltd)
    by (done || by apply Qclt_nonzero).
  by rewrite bind_ret.
Qed.

(** C5. For a strictly positive OCF base and share count, a numeric growth
    rate [g] (the provider's entry, or 0.10 when the key is absent), numeric
    or absent balance-sheet entries and a discount rate [r] with
    [1 + r ≠ 0]: year [t] of 1..20 uses [g] up to year 5, [g / 2] up to year
    10 and 0.04 afterwards; its projected value is [ocf * (1 + growth t) ^ t];
    its discounted value is the projected value times [(1 + r) ^ -t]; and the
    value returned is [sum(discounted) / shares + (cash + investments) / shares
    - (short-term debt + long-term debt) / shares] rounded to two decimal
    places, together with the two lists. *)
Theorem ocf_valuation_formula (info : gmap string pyval)
    (ocf shares g r cash sti std ltd : Qc) :
  info !! "operatingCashflow" = Some (VNum ocf) → 0 < ocf →
  info !! "sharesOutstanding" = Some (VNum shares) → 0 < shares →
  dict_get info "earningsQuarterlyGrowth" (VNum (Q2Qc 0.10)) = VNum g →
  dict_get info "cash" (VNum 0) = VNum cash →
  dict_get info "shortTermInvestments" (VNum 0) = VNum sti →
  dict_get info "shortTermDebt" (VNum 0) = VNum std →
  dict_get info "longTermDebt" (VNum 0) = VNum ltd →
  1 + r ≠ 0 →
  let growth (t : nat) : Qc :=
    if decide (t ≤ 5)%nat then g
    else if decide (t ≤ 10)%nat then g / 2
    else Q2Qc 0.04 in
  let projected := (λ t, ocf * (1 + growth t) ^ t) <$> seq 1 20 in
  let discounted := (λ t, ocf * (1 + growth t) ^ t * / (1 + r) ^ t) <$> seq 1 20 in
  calculate_ocf_based_intrinsic_value (Returned info) r
  = ([], Returned (Some (round2 (py_sum discounted / shares + (cash + sti) / shares
                                 - (std + ltd) / shares),
                         projected, discounted))).
Proof. intros. by apply ocf_valuation_value. Qed.

Lemma ocf_valuation_formula_witness :
  let growth (t : nat) : Qc :=
    if decide (t ≤ 5)%nat then Q2Qc 0.10
    else if decide (t ≤ 10)%nat then Q2Qc 0.10 / 2
    else Q2Qc 0.04 in
  let projected := (λ t, Q2Qc 100 * (1 + growth t) ^ t) <$> seq 1 20 in
  let discounted :=
    (λ t, Q2Qc 100 * (1 + growth t) ^ t * / (1 + Q2Qc 0.08) ^ t) <$> seq 1 20 in
  calculate_ocf_based_intrinsic_value (Returned info_sample) (Q2Qc 0.08)
  = ([], Returned (Some (round2 (py_sum discounted / Q2Qc 10
                                 + (Q2Qc 30 + 0) / Q2Qc 10
                                 - (Q2Qc 10 + 0) / Q2Qc 10),
                         projected, discounted))).
Proof.
  apply (ocf_valuation_formula info_sample (Q2Qc 100) (Q2Qc 10) (Q2Qc 0.10) (Q2Qc 0.08)
           (Q2Qc 30) 0 (Q2Qc 10) 0); try reflexivity.
  apply Qc_nonzero_by_value. vm_compute. discriminate.
Defined.

(** On the sample company the value per share is 150.83. *)
Example ocf_valuation_sample :
  (calculate_ocf_based_intrinsic_value (Returned info_sample) (Q2Qc 0.08)).2
  = Returned (Some (Q2Qc 150.83,
                    (λ t, Q2Qc 100 * (1 + ocf_growth (Q2Qc 0.10) (Q2Qc 0.05) (Q2Qc 0.04) t) ^ t)
                      <$> seq 1 20,
                    (λ t, Q2Qc 100 * (1 + ocf_growth (Q2Qc 0.10) (Q2Qc 0.05) (Q2Qc 0.04) t) ^ t
                          * / (Q2Qc 1.08) ^ t) <$> seq 1 20)).
Proof. compute_done. Qed.

(** ** OCF-based valuation: the growth rate it uses *)

(** An explicit [None] for the quarterly earnings growth is not replaced by
    0.10: halving it raises [TypeError] and the valuation yields no result. *)
Lemma ocf_valuation_null_growth (info : gmap string pyval) (r : Qc) :
  info !! "earningsQuarterlyGrowth" = Some VNone →
  calculate_ocf_based_intrinsic_value (Returned info) r
  = ([StError "OCF-based valuation failed" TypeError], Returned None).
Proof.
  intros Hg. unfold calculate_ocf_based_intrinsic_value, ocf_valuation_body.
  rewrite bind_fetch_returned. unfold dict_get. rewrite Hg. reflexivity.
Qed.

(** C3. For a provider reporting a quarterly earnings growth of -0.5, the
    growth resolver answers 0.10 with the default tag, while the OCF-based
    valuation projects with -0.5: its first projected value is
    [100 * (1 - 0.5) = 50], not [100 * 1.10 = 110], and it returns 69.55. *)
Theorem ocf_valuation_skips_growth_resolver :
  get_growth_rate (Returned info_negative_growth)
    = ([], Returned (VNum (Q2Qc 0.10), "Default"%string)) ∧
  ∃ projected discounted,
    calculate_ocf_based_intrinsic_value (Returned info_negative_growth) (Q2Qc 0.08)
      = ([], Returned (Some (Q2Qc 69.55, projected, discounted))) ∧
    projected !! 0%nat = Some (Q2Qc 50) ∧
    projected !! 0%nat ≠ Some (Q2Qc 100 * (1 + Q2Qc 0.10) ^ 1).
Proof.
  split.
  - apply get_growth_rate_default. intros info g [= <-] Hg Hpos.
    vm_compute in Hg. injection Hg as <-. vm_compute in Hpos. discriminate.
  - eexists _, _. split; [|split].
    + rewrite (ocf_valuation_value info_negative_growth (Q2Qc 100) (Q2Qc 10)
                 (Q2Qc (-0.5)) (Q2Qc 0.08) (Q2Qc 30) 0 (Q2Qc 10) 0);
        [|reflexivity..|by apply Qc_nonzero_by_value].
      unfold mret, M_mret, M_ret. do 4 f_equal; compute_done.
    + compute_done.
    + compute_done.
Qed.

(** ** The discount rate against the terminal growth rate *)

(** C4, as the code has it. No domain error exists and the OCF-based
    valuation, which computes no terminal value, does not check the discount
    rate: with a strictly positive operating cash flow and share count, a
    growth entry between -1 and 1 (or absent), numeric or absent
    balance-sheet entries and a discount rate from 0 up to the terminal growth
    rate 0.04, the call is not aborted and returns a value with its two
    lists, writing no message. *)
Theorem ocf_valuation_accepts_low_discount_rate (info : gmap string pyval)
    (ocf shares g r cash sti std ltd : Qc) :
  0 ≤ r → r ≤ TERMINAL_GROWTH_RATE →
  info !! "operatingCashflow" = Some (VNum ocf) → 0 < ocf →
  info !! "sharesOutstanding" = Some (VNum shares) → 0 < shares →
  dict_get info "earningsQuarterlyGrowth" (VNum (Q2Qc 0.10)) = VNum g →
  - 1 ≤ g → g ≤ 1 →
  dict_get info "cash" (VNum 0) = VNum cash →
  dict_get info "shortTermInvestments" (VNum 0) = VNum sti →
  dict_get info "shortTermDebt" (VNum 0) = VNum std →
  dict_get info "longTermDebt" (VNum 0) = VNum ltd →
  ∃ value projected discounted,
    calculate_ocf_based_intrinsic_value (Returned info) r
    = ([], Returned (Some (value, projected, discounted))).
Proof.
  intros Hr0 Hle Hocf Hocf_pos Hsh Hsh_pos Hg _ _ Hc Hi Hd Hl.
  assert (1 + r ≠ 0) as Hr.
  { apply Qclt_nonzero. by apply Qcplus_pos_nonneg. }
  eexists _, _, _.
  by apply (ocf_valuation_value info ocf shares g r cash sti std ltd).
Qed.

Lemma ocf_valuation_accepts_low_discount_rate_witness :
  ∃ value projected discounted,
    calculate_ocf_based_intrinsic_value (Returned info_sample) TERMINAL_GROWTH_RATE
    = ([], Returned (Some (value, projected, discounted))).
Proof.
  apply (ocf_valuation_accepts_low_discount_rate info_sample (Q2Qc 100) (Q2Qc 10)
           (Q2Qc 0.10) TERMINAL_GROWTH_RATE (Q2Qc 30) 0 (Q2Qc 10) 0);
    first [reflexivity | by vm_compute].
Defined.

(** C4, as the specification states it, fails: at a discount rate of exactly
    0.04 the OCF-based valuation of the sample company returns a value,
    215.33. *)
Lemma ocf_valuation_at_terminal_growth_returns :
  ¬ (∀ (info : gmap string pyval) (ocf shares r : Qc),
       info !! "operatingCashflow" = Some (VNum ocf) → 0 < ocf →
       info !! "sharesOutstanding" = Some (VNum shares) → 0 < shares →
       r ≤ TERMINAL_GROWTH_RATE →
       (calculate_ocf_based_intrinsic_value (Returned info) r).2 = Returned None).
Proof.
  intros Hclaim.
  specialize (Hclaim info_sample (Q2Qc 100) (Q2Qc 10) TERMINAL_GROWTH_RATE).
  rewrite (ocf_valuation_value info_sample (Q2Qc 100) (Q2Qc 10) (Q2Qc 0.10)
             TERMINAL_GROWTH_RATE (Q2Qc 30) 0 (Q2Qc 10) 0) in Hclaim;
    [|reflexivity..|by apply Qc_nonzero_by_value].
  discriminate Hclaim; [reflexivity..|by vm_compute].
Qed.

Example ocf_valuation_at_terminal_growth_value :
  fst <$> (match (calculate_ocf_based_intrinsic_value (Returned info_sample)
                    TERMINAL_GROWTH_RATE).2 with
           | Returned (Some (value, _, _)) => Some (value, 0%nat)
           | _ => None
           end) = Some (Q2Qc 215.33).
Proof. compute_done. Qed.

(** ** OCF-based valuation: missing base data *)

Lemma ocf_valuation_provider_failure (e : exn) (r : Qc) :
  calculate_ocf_based_intrinsic_value (Raised e) r
  = ([StError "OCF-based valuation failed" e], Returned None).
Proof. reflexivity. Qed.

(** C6. When the operating cash flow or the share count is absent, [None]
    or not strictly positive, the OCF-based valuation returns no result:
    silently through its guard, or, when an entry is not a number, through
    the handler after a [TypeError].  No [ZeroDivisionError] occurs: the
    division by the share count is not reached. *)
Theorem ocf_valuation_unavailable (info : gmap string pyval) (r : Qc) :
  (∀ q, info !! "operatingCashflow" = Some (VNum q) → q ≤ 0) ∨
  (∀ q, info !! "sharesOutstanding" = Some (VNum q) → q ≤ 0) →
  calculate_ocf_based_intrinsic_value (Returned info) r = ([], Returned None) ∨
  calculate_ocf_based_intrinsic_value (Returned info) r
    = ([StError "OCF-based valuation failed" TypeError], Returned None).
Proof.
  intros Hbad. unfold calculate_ocf_based_intrinsic_value, ocf_valuation_body.
  rewrite bind_fetch_returned.
  destruct (dict_get info "earningsQuarterlyGrowth" _) as [|g|s];
    [by right| |by right].
  simpl as_number. rewrite bind_ret. unfold dict_get.
  destruct (info !! "operatingCashflow") as [[|q|s]|] eqn:Hocf; simpl default;
    [by left| |by right|by left].
  destruct (decide (q ≤ 0)) as [Hq|Hq].
  { rewrite is_none_or_le0_nonpos by done. by left. }
  apply Qcnot_le_lt in Hq. rewrite is_none_or_le0_pos, bind_ret by done.
  destruct Hbad as [Hbad|Hbad].
  { specialize (Hbad q eq_refl). by apply Qcle_not_lt in Hbad. }
  destruct (info !! "sharesOutstanding") as [[|n|s]|] eqn:Hsh; simpl default;
    [by left| |by right|by left].
  rewrite is_none_or_le0_nonpos by by apply Hbad. by left.
Qed.

Lemma ocf_valuation_unavailable_witness :
  calculate_ocf_based_intrinsic_value (Returned info_no_shares) (Q2Qc 0.08)
    = ([], Returned None) ∨
  calculate_ocf_based_intrinsic_value (Returned info_no_shares) (Q2Qc 0.08)
    = ([StError "OCF-based valuation failed" TypeError], Returned None).
Proof.
  apply (ocf_valuation_unavailable info_no_shares (Q2Qc 0.08)).
  right. intros q Hq. vm_compute in Hq. discriminate.
Defined.

(** ** No exception leaves a valuation *)

Lemma report_and_return_none {A} (text : string) (e : exn) :
  (tell (StError text e);; mret None) = ([StError text e], Returned (@None A)).
Proof. reflexivity. Qed.

Lemma then_outcome {A B} (m : M A) (next : M B) :
  (∃ w a, m = (w, Returned a)) → (m;; next).2 = next.2.
Proof.
  intros (w & a & ->). unfold mbind, M_mbind, M_bind. by destruct next.
Qed.

(** C9. For every answer of the provider, failure included, and for every
    discount and growth rate, each of the two valuations returns: a value or
    [None], never an exception; and whatever runs after the call has the
    outcome it has on its own. *)
Theorem valuations_never_raise (yf : provider) (r g : Qc) :
  (∃ w v, calculate_eps_valuation yf r g = (w, Returned v)) ∧
  (∃ w v, calculate_ocf_based_intrinsic_value yf r = (w, Returned v)) ∧
  (∀ (B : Type) (next : M B),
     (calculate_eps_valuation yf r g;; next).2 = next.2 ∧
     (calculate_ocf_based_intrinsic_value yf r;; next).2 = next.2).
Proof.
  assert (∃ w v, calculate_eps_valuation yf r g = (w, Returned v)) as Heps.
  { apply try_except_returns. intros e. rewrite report_and_return_none. eauto. }
  assert (∃ w v, calculate_ocf_based_intrinsic_value yf r = (w, Returned v)) as Hocf.
  { apply try_except_returns. intros e. rewrite report_and_return_none. eauto. }
  split; [done|]. split; [done|].
  intros B next. split; by apply then_outcome.
Qed.

(** ** OCF-based valuation: the balance-sheet entries *)

Lemma dict_get_insert_absent (info : gmap string pyval) (key k : string) (v d : pyval) :
  info !! key = None → (k = key → d = v) →
  dict_get (<[key := v]> info) k d = dict_get info k d.
Proof.
  intros Habsent Hd. unfold dict_get. destruct (decide (k = key)) as [->|Hne].
  - rewrite lookup_insert_eq, Habsent. simpl. symmetry. by apply Hd.
  - by rewrite lookup_insert_ne.
Qed.

(** With an explicit [None] under one of the four keys the computation of
    the per-share value raises. *)
Lemma ocf_final_value_null (info : gmap string pyval) (shares : Qc) (D : list Qc)
    (key : string) :
  key ∈ balance_sheet_keys → info !! key = Some VNone →
  ∃ e, ocf_final_value info shares D = raise e.
Proof.
  intros Hkey Hnull. unfold ocf_final_value.
  destruct (decide (shares = 0)) as [->|Hs].
  { rewrite num_div_zero. by eexists. }
  rewrite num_div_nonzero, bind_ret by done. unfold dict_get.
  unfold balance_sheet_keys in Hkey.
  repeat (apply elem_of_cons in Hkey as [->|Hkey]); [..|by apply elem_of_nil in Hkey];
    rewrite Hnull; simpl default.
  all: unfold py_add, as_number.
  all: repeat match goal with
         | |- context [default ?d (?m !! ?k)] => destruct (default d (m !! k))
         end.
  all: repeat (cbv beta iota;
               first [rewrite bind_ret | rewrite bind_raise
                     | rewrite num_div_nonzero by done]).
  all: by eexists.
Qed.

Section no_result.
Context {B : Type}.

(** A computation that yields no value: it returns [None] or raises. *)
Let no_result (m : M (option B)) : Prop :=
  m.2 = Returned None ∨ ∃ e, m.2 = Raised e.

Lemma bind_no_result {A} (m : M A) (f : A → M (option B)) :
  (∀ a, no_result (f a)) → no_result (m ≫= f).
Proof.
  intros Hf. unfold no_result, mbind, M_mbind, M_bind.
  destruct m as [w [a|e]]; [|right; by eexists].
  specialize (Hf a). unfold no_result in Hf. by destruct (f a).
Qed.

Lemma try_except_no_result (body : M (option B)) (text : string) :
  no_result body →
  ∃ w, try_except body (λ e, tell (StError text e);; mret None) = (w, Returned None).
Proof.
  unfold no_result. destruct body as [w [v|e]]; simpl.
  - intros [[= ->]|[e [=]]]. by eexists.
  - intros _. by eexists.
Qed.
End no_result.

(** C10. The default of 0 for the four balance-sheet entries stands in for
    an absent key only.  With an explicit [None] under one of the keys the
    OCF-based valuation returns no result, whatever the other entries are,
    valid and positive operating cash flow and share count included; with the
    key absent the valuation is the one of the same data with 0 under that
    key. *)
Theorem ocf_valuation_null_balance_entry (info : gmap string pyval) (r : Qc)
    (key : string) :
  key ∈ balance_sheet_keys →
  (info !! key = Some VNone →
     ∃ w, calculate_ocf_based_intrinsic_value (Returned info) r = (w, Returned None)) ∧
  (info !! key = None →
     calculate_ocf_based_intrinsic_value (Returned info) r
     = calculate_ocf_based_intrinsic_value (Returned (<[key := VNum 0]> info)) r).
Proof.
  intros Hkey. split.
  - intros Hnull. apply try_except_no_result.
    unfold ocf_valuation_body. rewrite bind_fetch_returned.
    apply bind_no_result; intros growth_1_5.
    apply bind_no_result; intros c.
    apply bind_no_result; intros [|]; [by left|].
    apply bind_no_result; intros ocf.
    apply bind_no_result; intros shares.
    apply bind_no_result; intros [projected_ocf discounted_ocf].
    destruct (ocf_final_value_null info shares discounted_ocf key) as [e ->]; [done..|].
    right. by eexists.
  - intros Habsent.
    unfold calculate_ocf_based_intrinsic_value, ocf_valuation_body, ocf_final_value.
    rewrite !bind_fetch_returned.
    unfold balance_sheet_keys in Hkey.
    repeat (apply elem_of_cons in Hkey as [->|Hkey]); [..|by apply elem_of_nil in Hkey];
      by rewrite !dict_get_insert_absent by done.
Qed.

Lemma ocf_valuation_null_balance_entry_witness :
  (∃ w, calculate_ocf_based_intrinsic_value (Returned info_null_cash) (Q2Qc 0.08)
        = (w, Returned None)) ∧
  calculate_ocf_based_intrinsic_value (Returned info_sample) (Q2Qc 0.08)
  = calculate_ocf_based_intrinsic_value
      (Returned (<["longTermDebt" := VNum 0]> info_sample)) (Q2Qc 0.08).
Proof.
  split.
  - apply (ocf_valuation_null_balance_entry info_null_cash (Q2Qc 0.08) "cash").
    + repeat constructor.
    + reflexivity.
  - apply (ocf_valuation_null_balance_entry info_sample (Q2Qc 0.08) "longTermDebt").
    + repeat constructor.
    + reflexivity.
Defined.

(** On the sample company with [None] under ["cash"], the failure is the
    [TypeError] of [cash + short_term_investments], reported by the handler. *)
Example ocf_valuation_null_cash :
  calculate_ocf_based_intrinsic_value (Returned info_null_cash) (Q2Qc 0.08)
  = ([StError "OCF-based valuation failed" TypeError], Returned None).
Proof. compute_done. Qed.

(** * Further properties of the code *)

(** ** The getters *)

(** Whether the provider answers with a strictly positive number under a
    key can be decided. *)
Lemma positive_entry_dec (yf : provider) (key : string) :
  (∃ info q, yf = Returned info ∧ info !! key = Some (VNum q) ∧ 0 < q) ∨
  (∀ info q, yf = Returned info → info !! key = Some (VNum q) → ¬ 0 < q).
Proof.
  destruct yf as [info|e]; [|by right].
  destruct (info !! key) as [[|q|s]|] eqn:Hkey; try (right; congruence).
  destruct (decide (0 < q)) as [Hq|Hq]; [left; by eauto|].
  right. intros info' q' [= <-] Hq'. rewrite Hkey in Hq'. by injection Hq' as <-.
Qed.

(** X1. The growth resolver never raises and writes nothing.  It returns the
    provider's quarterly earnings growth, tagged with the provider, when that
    is a strictly positive number, and 0.10 tagged as the default in every
    other case; what it returns is always a strictly positive number. *)
Theorem growth_resolver_contract (yf : provider) :
  (∀ info g, yf = Returned info →
     info !! "earningsQuarterlyGrowth" = Some (VNum g) → 0 < g →
     get_growth_rate yf = ([], Returned (VNum g, "Yahoo Finance"%string))) ∧
  ((∀ info g, yf = Returned info →
      info !! "earningsQuarterlyGrowth" = Some (VNum g) → ¬ 0 < g) →
     get_growth_rate yf = ([], Returned (VNum (Q2Qc 0.10), "Default"%string))) ∧
  (∃ g tag, get_growth_rate yf = ([], Returned (VNum g, tag)) ∧ 0 < g).
Proof.
  split; [|split].
  - intros info g -> Hg Hpos. by apply get_growth_rate_provider.
  - apply get_growth_rate_default.
  - destruct (positive_entry_dec yf "earningsQuarterlyGrowth")
      as [(info & g & -> & Hg & Hpos)|Hother].
    + eexists _, _. split; [by apply get_growth_rate_provider|done].
    + eexists _, _. split; [by apply get_growth_rate_default|done].
Qed.

Lemma growth_resolver_contract_witness :
  get_growth_rate (Returned {["earningsQuarterlyGrowth" := VNum (Q2Qc 0.25)]})
    = ([], Returned (VNum (Q2Qc 0.25), "Yahoo Finance"%string)) ∧
  get_growth_rate (Returned {["earningsQuarterlyGrowth" := VStr "n/a"]})
    = ([], Returned (VNum (Q2Qc 0.10), "Default"%string)).
Proof.
  split.
  - apply (proj1 (growth_resolver_contract _) _ (Q2Qc 0.25) eq_refl); reflexivity.
  - apply (proj1 (proj2 (growth_resolver_contract _))).
    intros info g [= <-] Hg. vm_compute in Hg. discriminate.
Defined.

(** X2. [get_eps] never raises and writes nothing.  It returns the
    provider's trailing EPS, tagged with the provider, when that is a strictly
    positive number, and [None] tagged as unavailable in every other case;
    so the EPS it returns is [None] or a strictly positive number, never
    zero, negative or a string. *)
Theorem get_eps_contract (yf : provider) :
  (∀ info eps, yf = Returned info →
     info !! "trailingEps" = Some (VNum eps) → 0 < eps →
     get_eps yf = ([], Returned (VNum eps, "Yahoo Finance"%string))) ∧
  ((∀ info eps, yf = Returned info →
      info !! "trailingEps" = Some (VNum eps) → ¬ 0 < eps) →
     get_eps yf = ([], Returned (VNone, "Unavailable"%string))) ∧
  (∃ v tag, get_eps yf = ([], Returned (v, tag)) ∧
            (v = VNone ∨ ∃ eps, v = VNum eps ∧ 0 < eps)).
Proof.
  split; [|split].
  - intros info eps -> He Hpos. by apply get_eps_provider.
  - apply get_eps_unavailable.
  - destruct (positive_entry_dec yf "trailingEps")
      as [(info & eps & -> & He & Hpos)|Hother].
    + eexists _, _. split; [by apply get_eps_provider|]. right. by eauto.
    + eexists _, _. split; [by apply get_eps_unavailable|]. by left.
Qed.

Lemma get_eps_contract_witness :
  get_eps (Returned {["trailingEps" := VNum (Q2Qc 6.5)]})
    = ([], Returned (VNum (Q2Qc 6.5), "Yahoo Finance"%string)) ∧
  get_eps (Returned {["trailingEps" := VNum (Q2Qc (-2))]})
    = ([], Returned (VNone, "Unavailable"%string)).
Proof.
  split.
  - apply (proj1 (get_eps_contract _) _ (Q2Qc 6.5) eq_refl); reflexivity.
  - apply (proj1 (proj2 (get_eps_contract _))).
    intros info eps [= <-] He Hpos. vm_compute in He.
    injection He as <-. vm_compute in Hpos. discriminate.
Defined.

(** ** The derived discount rate *)

Lemma get_beta_positive (yf : provider) :
  ∃ beta, get_beta yf = mret (VNum beta) ∧ 0 < beta.
Proof.
  destruct (positive_entry_dec yf "beta") as [(info & beta & -> & Hb & Hpos)|Hother].
  - exists beta. split; [by apply get_beta_provider|done].
  - exists 1. split; [by apply get_beta_default|done].
Qed.

(** X3. The discount rate derived from the beta never raises, is at least
    the risk-free rate 0.045, and so is strictly above the terminal growth
    rate 0.04. *)
Theorem derived_discount_rate_above_terminal_growth (yf : provider) :
  ∃ r, calculated_discount_rate yf = ([], Returned r) ∧
       RISK_FREE_RATE ≤ r ∧ TERMINAL_GROWTH_RATE < r.
Proof.
  destruct (get_beta_positive yf) as (beta & Hbeta & Hpos).
  exists (RISK_FREE_RATE + beta * MARKET_RISK_PREMIUM).
  assert (RISK_FREE_RATE ≤ RISK_FREE_RATE + beta * MARKET_RISK_PREMIUM) as Hrf.
  { replace RISK_FREE_RATE with (RISK_FREE_RATE + 0) at 1 by ring.
    apply Qcplus_le_mono_l, Qclt_le_weak. by apply Qcmult_pos_pos. }
  split; [|split; [done|]].
  - unfold calculated_discount_rate. rewrite Hbeta. by autorewrite with py.
  - by apply (Qclt_le_trans _ RISK_FREE_RATE).
Qed.

(** ** The EPS-based valuation as a whole *)

(** X4. The EPS-based valuation returns [None] on every input.  When the
    provider gives no strictly positive EPS (EPS absent, [None], zero,
    negative, not a number, provider failing) the call takes the guard of
    line 77: it warns that the EPS is unavailable, reports no error and returns
    [None]. *)
Theorem eps_valuation_never_returns_a_value (yf : provider) (r g : Qc) :
  (∃ w, calculate_eps_valuation yf r g = (w, Returned None)) ∧
  ((∀ info eps, yf = Returned info → info !! "trailingEps" = Some (VNum eps) → ¬ 0 < eps) →
   calculate_eps_valuation yf r g = ([StWarning "EPS unavailable"], Returned None)).
Proof.
  assert ((∀ info eps, yf = Returned info →
             info !! "trailingEps" = Some (VNum eps) → ¬ 0 < eps) →
          calculate_eps_valuation yf r g
          = ([StWarning "EPS unavailable"], Returned None)) as Hguard.
  { intros Hother. unfold calculate_eps_valuation, eps_valuation_body.
    rewrite get_eps_unavailable by done. by autorewrite with py. }
  split; [|exact Hguard].
  destruct (positive_entry_dec yf "trailingEps")
    as [(info & eps & -> & He & Hpos)|Hother].
  - eexists. unfold calculate_eps_valuation.
    rewrite (eps_valuation_body_raises info eps) by done.
    by rewrite try_except_raise.
  - eexists. by apply Hguard.
Qed.

Lemma eps_valuation_never_returns_a_value_witness :
  calculate_eps_valuation (Returned {["trailingEps" := VNum (Q2Qc (-2))]})
    (Q2Qc 0.10) (Q2Qc 0.10)
  = ([StWarning "EPS unavailable"], Returned None).
Proof.
  apply (proj2 (eps_valuation_never_returns_a_value _ _ _)).
  intros info eps [= <-] He Hpos. vm_compute in He.
  injection He as <-. vm_compute in Hpos. discriminate.
Defined.

(** ** The OCF-based valuation as a whole *)

(** With numeric growth and strictly positive operating cash flow and share
    count, the function is its projection loop followed by the per-share
    computation. *)
Lemma ocf_valuation_past_guard (info : gmap string pyval) (ocf shares g r : Qc) :
  info !! "operatingCashflow" = Some (VNum ocf) → 0 < ocf →
  info !! "sharesOutstanding" = Some (VNum shares) → 0 < shares →
  dict_get info "earningsQuarterlyGrowth" (VNum (Q2Qc 0.10)) = VNum g →
  calculate_ocf_based_intrinsic_value (Returned info) r
  = try_except
      ('(projected_ocf, discounted_ocf) ←
         ocf_loop g (g / 2) TERMINAL_GROWTH_RATE ocf r (seq 1 20) [] [];
       final_value ← ocf_final_value info shares discounted_ocf;
       mret (Some (round2 final_value, projected_ocf, discounted_ocf)))
      (λ e, tell (StError "OCF-based valuation failed" e);; mret None).
Proof.
  intros Hocf Hocf_pos Hsh Hsh_pos Hg.
  unfold calculate_ocf_based_intrinsic_value, ocf_valuation_body.
  rewrite bind_fetch_returned, Hg.
  unfold dict_get. rewrite Hocf, Hsh. simpl default.
  unfold as_number. rewrite !bind_ret.
  rewrite !is_none_or_le0_pos by done. by rewrite !bind_ret.
Qed.

Lemma ocf_loop_zero_division (g1 g2 g3 ocf r : Qc) :
  1 + r = 0 →
  ocf_loop g1 g2 g3 ocf r (seq 1 20) [] [] = raise ZeroDivisionError.
Proof.
  intros Hr. change (seq 1 20) with (1%nat :: seq 2 19).
  unfold ocf_loop at 1.
  replace ((1 + r) ^ 1) with (0 : Qc) by (rewrite Hr; done).
  by rewrite num_div_zero.
Qed.

(** The per-share computation ends in a value, for four numeric or absent
    balance-sheet entries, or in a [TypeError]. *)
Lemma ocf_final_value_cases (info : gmap string pyval) (shares : Qc) (D : list Qc) :
  shares ≠ 0 →
  (∃ cash sti std ltd,
     dict_get info "cash" (VNum 0) = VNum cash ∧
     dict_get info "shortTermInvestments" (VNum 0) = VNum sti ∧
     dict_get info "shortTermDebt" (VNum 0) = VNum std ∧
     dict_get info "longTermDebt" (VNum 0) = VNum ltd) ∨
  ocf_final_value info shares D = raise TypeError.
Proof.
  intros Hs. unfold ocf_final_value.
  destruct (dict_get info "cash" (VNum 0)) as [|cash|?],
           (dict_get info "shortTermInvestments" (VNum 0)) as [|sti|?],
           (dict_get info "shortTermDebt" (VNum 0)) as [|std|?],
           (dict_get info "longTermDebt" (VNum 0)) as [|ltd|?].
  all: unfold py_add, as_number.
  all: repeat (cbv beta iota;
               first [rewrite bind_ret | rewrite bind_raise
                     | rewrite num_div_nonzero by done]).
  all: try (by right).
  left. by eexists _, _, _, _.
Qed.

(** Up to its guard the function depends on three entries: either they are
    a numeric growth and a strictly positive cash flow and share count, or the
    call ends without a value, silently or after a [TypeError]. *)
Lemma ocf_valuation_guard_cases (info : gmap string pyval) (r : Qc) :
  (∃ ocf shares g,
     info !! "operatingCashflow" = Some (VNum ocf) ∧ 0 < ocf ∧
     info !! "sharesOutstanding" = Some (VNum shares) ∧ 0 < shares ∧
     dict_get info "earningsQuarterlyGrowth" (VNum (Q2Qc 0.10)) = VNum g) ∨
  calculate_ocf_based_intrinsic_value (Returned info) r = ([], Returned None) ∨
  calculate_ocf_based_intrinsic_value (Returned info) r
    = ([StError "OCF-based valuation failed" TypeError], Returned None).
Proof.
  destruct (dict_get info "earningsQuarterlyGrowth" (VNum (Q2Qc 0.10)))
    as [|g|s] eqn:Hg.
  1, 3: right; right;
        unfold calculate_ocf_based_intrinsic_value, ocf_valuation_body;
        by rewrite bind_fetch_returned, Hg.
  assert (∀ k : Qc → M ocf_result, (as_number (VNum g) ≫= k) = k g) as Hnum.
  { intros k. unfold as_number. by rewrite bind_ret. }
  destruct (info !! "operatingCashflow") as [[|ocf|s]|] eqn:Hocf.
  1, 3, 4: right;
        unfold calculate_ocf_based_intrinsic_value, ocf_valuation_body;
        rewrite bind_fetch_returned, Hg, Hnum; unfold dict_get; rewrite Hocf;
        by (left + right).
  destruct (decide (0 < ocf)) as [Hocf_pos|Hocf_neg].
  2: { right. left.
       unfold calculate_ocf_based_intrinsic_value, ocf_valuation_body.
       rewrite bind_fetch_returned, Hg, Hnum. unfold dict_get. rewrite Hocf.
       simpl default. by rewrite is_none_or_le0_nonpos by by apply Qcnot_lt_le. }
  destruct (info !! "sharesOutstanding") as [[|shares|s]|] eqn:Hsh.
  1, 3, 4: right;
        unfold calculate_ocf_based_intrinsic_value, ocf_valuation_body;
        rewrite bind_fetch_returned, Hg, Hnum; unfold dict_get; rewrite Hocf, Hsh;
        simpl default; rewrite (is_none_or_le0_pos ocf), bind_ret by done;
        by (left + right).
  destruct (decide (0 < shares)) as [Hsh_pos|Hsh_neg].
  - left. by eexists _, _, _.
  - right. left.
    unfold calculate_ocf_based_intrinsic_value, ocf_valuation_body.
    rewrite bind_fetch_returned, Hg, Hnum. unfold dict_get. rewrite Hocf, Hsh.
    simpl default. rewrite (is_none_or_le0_pos ocf), bind_ret by done.
    by rewrite is_none_or_le0_nonpos by by apply Qcnot_lt_le.
Qed.

Lemma ocf_valuation_at_minus_one (info : gmap string pyval) (ocf shares g r : Qc) :
  info !! "operatingCashflow" = Some (VNum ocf) → 0 < ocf →
  info !! "sharesOutstanding" = Some (VNum shares) → 0 < shares →
  dict_get info "earningsQuarterlyGrowth" (VNum (Q2Qc 0.10)) = VNum g →
  1 + r = 0 →
  calculate_ocf_based_intrinsic_value (Returned info) r
  = ([StError "OCF-based valuation failed" ZeroDivisionError], Returned None).
Proof.
  intros Hocf Hocf_pos Hsh Hsh_pos Hg Hr.
  rewrite (ocf_valuation_past_guard info ocf shares g r) by done.
  by rewrite ocf_loop_zero_division, bind_raise, try_except_raise by done.
Qed.

(** X5. At a discount rate of -1 the OCF-based valuation of a company with
    numeric growth and strictly positive cash flow and share count divides by
    zero in the first year's discount factor: it reports a
    [ZeroDivisionError] and returns no value, whatever the balance sheet. *)
Theorem ocf_valuation_zero_division (info : gmap string pyval) (ocf shares g r : Qc) :
  info !! "operatingCashflow" = Some (VNum ocf) → 0 < ocf →
  info !! "sharesOutstanding" = Some (VNum shares) → 0 < shares →
  dict_get info "earningsQuarterlyGrowth" (VNum (Q2Qc 0.10)) = VNum g →
  1 + r = 0 →
  calculate_ocf_based_intrinsic_value (Returned info) r
  = ([StError "OCF-based valuation failed" ZeroDivisionError], Returned None).
Proof. intros. by eapply ocf_valuation_at_minus_one. Qed.

Lemma ocf_valuation_zero_division_witness :
  calculate_ocf_based_intrinsic_value (Returned info_sample) (Q2Qc (-1))
  = ([StError "OCF-based valuation failed" ZeroDivisionError], Returned None).
Proof.
  apply (ocf_valuation_zero_division info_sample (Q2Qc 100) (Q2Qc 10) (Q2Qc 0.10));
    first [reflexivity | apply Qc_is_canon; reflexivity].
Defined.

(** The whole function, case by case. *)
Lemma ocf_valuation_cases (info : gmap string pyval) (r : Qc) :
  calculate_ocf_based_intrinsic_value (Returned info) r = ([], Returned None) ∨
  calculate_ocf_based_intrinsic_value (Returned info) r
    = ([StError "OCF-based valuation failed" TypeError], Returned None) ∨
  (1 + r = 0 ∧
   calculate_ocf_based_intrinsic_value (Returned info) r
     = ([StError "OCF-based valuation failed" ZeroDivisionError], Returned None)) ∨
  (∃ ocf shares g cash sti std ltd,
     info !! "operatingCashflow" = Some (VNum ocf) ∧ 0 < ocf ∧
     info !! "sharesOutstanding" = Some (VNum shares) ∧ 0 < shares ∧
     dict_get info "earningsQuarterlyGrowth" (VNum (Q2Qc 0.10)) = VNum g ∧
     dict_get info "cash" (VNum 0) = VNum cash ∧
     dict_get info "shortTermInvestments" (VNum 0) = VNum sti ∧
     dict_get info "shortTermDebt" (VNum 0) = VNum std ∧
     dict_get info "longTermDebt" (VNum 0) = VNum ltd ∧
     1 + r ≠ 0).
Proof.
  destruct (ocf_valuation_guard_cases info r)
    as [(ocf & shares & g & Hocf & Hocf_pos & Hsh & Hsh_pos & Hg)|[Hnone|Herr]];
    [|by left|by right; left].
  destruct (decide (1 + r = 0)) as [Hr|Hr].
  { right. right. left. split; [done|].
    by apply (ocf_valuation_at_minus_one info ocf shares g). }
  set (D := (λ t, ocf * (1 + ocf_growth g (g / 2) TERMINAL_GROWTH_RATE t) ^ t
                  * / (1 + r) ^ t) <$> seq 1 20).
  destruct (ocf_final_value_cases info shares D)
    as [(cash & sti & std & ltd & Hc & Hi & Hd & Hl)|Hfinal];
    [by apply Qclt_nonzero| |].
  - right. right. right. by eexists ocf, shares, g, cash, sti, std, ltd.
  - right. left.
    assert (calculate_ocf_based_intrinsic_value (Returned info) r
            = try_except (ocf_final_value info shares D ≫= λ _, raise TypeError)
                (λ e, tell (StError "OCF-based valuation failed" e);; mret None))
      as ->.
    { rewrite (ocf_valuation_past_guard info ocf shares g r) by done.
      rewrite ocf_loop_total by done. rewrite !app_nil_l, bind_ret.
      cbv beta iota. subst D. by rewrite Hfinal, !bind_raise. }
    by rewrite Hfinal, bind_raise, try_except_raise.
Qed.

(** X6. For a discount rate that is not negative (the script's slider stays
    within 0.03 and 0.15) and a provider that answers, the OCF-based
    valuation never divides by zero: whatever the entries, it writes no
    report of a [ZeroDivisionError]. *)
Theorem ocf_valuation_no_zero_division (info : gmap string pyval) (r : Qc)
    (w : list ui_msg) (o : outcome ocf_result) :
  0 ≤ r →
  calculate_ocf_based_intrinsic_value (Returned info) r = (w, o) →
  StError "OCF-based valuation failed" ZeroDivisionError ∉ w.
Proof.
  intros Hr0 Hcall.
  assert (1 + r ≠ 0) as Hr.
  { apply Qclt_nonzero. by apply Qcplus_pos_nonneg. }
  destruct (ocf_valuation_cases info r)
    as [H|[H|[[Hr' _]|(ocf & shares & g & cash & sti & std & ltd & H)]]];
    [| |done|].
  - rewrite H in Hcall. injection Hcall as <- _. apply not_elem_of_nil.
  - rewrite H in Hcall. injection Hcall as <- _.
    rewrite list_elem_of_singleton. discriminate.
  - destruct H as (? & ? & ? & ? & ? & ? & ? & ? & ? & ?).
    rewrite (ocf_valuation_value info ocf shares g r cash sti std ltd) in Hcall by done.
    injection Hcall as <- _. apply not_elem_of_nil.
Qed.

Lemma ocf_valuation_no_zero_division_witness :
  StError "OCF-based valuation failed" ZeroDivisionError
  ∉ [StError "OCF-based valuation failed" TypeError].
Proof.
  apply (ocf_valuation_no_zero_division info_null_cash (Q2Qc 0.08) _ (Returned None)).
  - by vm_compute.
  - reflexivity.
Defined.

(** In exact arithmetic a returned value comes from valid data and is the
    formula's. *)
Lemma ocf_valuation_inversion (yf : provider) (r : Qc) (w : list ui_msg)
    (value : Qc) (projected discounted : list Qc) :
  calculate_ocf_based_intrinsic_value yf r
    = (w, Returned (Some (value, projected, discounted))) →
  ∃ info ocf shares g cash sti std ltd,
    yf = Returned info ∧
    info !! "operatingCashflow" = Some (VNum ocf) ∧ 0 < ocf ∧
    info !! "sharesOutstanding" = Some (VNum shares) ∧ 0 < shares ∧
    dict_get info "earningsQuarterlyGrowth" (VNum (Q2Qc 0.10)) = VNum g ∧
    dict_get info "cash" (VNum 0) = VNum cash ∧
    dict_get info "shortTermInvestments" (VNum 0) = VNum sti ∧
    dict_get info "shortTermDebt" (VNum 0) = VNum std ∧
    dict_get info "longTermDebt" (VNum 0) = VNum ltd ∧
    1 + r ≠ 0 ∧
    w = [] ∧
    projected
      = (λ t, ocf * (1 + ocf_growth g (g / 2) TERMINAL_GROWTH_RATE t) ^ t) <$> seq 1 20 ∧
    discounted
      = (λ t, ocf * (1 + ocf_growth g (g / 2) TERMINAL_GROWTH_RATE t) ^ t * / (1 + r) ^ t)
          <$> seq 1 20 ∧
    value = round2 (py_sum discounted / shares + (cash + sti) / shares
                    - (std + ltd) / shares).
Proof.
  intros Hret. destruct yf as [info|e]; [|discriminate Hret].
  destruct (ocf_valuation_cases info r)
    as [H|[H|[[_ H]|(ocf & shares & g & cash & sti & std & ltd & H)]]];
    try (rewrite H in Hret; discriminate Hret).
  destruct H as (Hocf & Hocf_pos & Hsh & Hsh_pos & Hg & Hc & Hi & Hd & Hl & Hr).
  rewrite (ocf_valuation_value info ocf shares g r cash sti std ltd) in Hret by done.
  injection Hret as <- <- <- <-.
  by eexists info, ocf, shares, g, cash, sti, std, ltd.
Qed.

(** X7. Whenever the OCF-based valuation returns a value, it wrote no
    message, both lists have 20 entries, the discount rate is not -1, and the
    provider answered with numbers that fail the test [<= 0] under
    ["operatingCashflow"] and ["sharesOutstanding"], a number (or nothing)
    under the growth key and numbers (or nothing) under the four
    balance-sheet keys. *)
Theorem ocf_valuation_value_only_for_valid_data (yf : provider) (r : Qc)
    (w : list ui_msg) (value : Qc) (projected discounted : list Qc) :
  calculate_ocf_based_intrinsic_value yf r
    = (w, Returned (Some (value, projected, discounted))) →
  w = [] ∧ length projected = 20%nat ∧ length discounted = 20%nat ∧ 1 + r ≠ 0 ∧
  ∃ info,
    yf = Returned info ∧
    (∃ ocf, info !! "operatingCashflow" = Some (VNum ocf) ∧ ¬ ocf ≤ 0) ∧
    (∃ shares, info !! "sharesOutstanding" = Some (VNum shares) ∧ ¬ shares ≤ 0) ∧
    (∃ g, dict_get info "earningsQuarterlyGrowth" (VNum (Q2Qc 0.10)) = VNum g) ∧
    (∃ cash sti std ltd,
       dict_get info "cash" (VNum 0) = VNum cash ∧
       dict_get info "shortTermInvestments" (VNum 0) = VNum sti ∧
       dict_get info "shortTermDebt" (VNum 0) = VNum std ∧
       dict_get info "longTermDebt" (VNum 0) = VNum ltd).
Proof.
  intros Hret.
  destruct (ocf_valuation_inversion _ _ _ _ _ _ Hret)
    as (info & ocf & shares & g & cash & sti & std & ltd & -> & Hocf & Hocf_pos
        & Hsh & Hsh_pos & Hg & Hc & Hi & Hd & Hl & Hr & -> & HP & HD & Hv).
  split; [done|]. split; [by rewrite HP|]. split; [by rewrite HD|]. split; [done|].
  exists info. split; [done|].
  split; [exists ocf; split; [done|by apply Qclt_not_le]|].
  split; [exists shares; split; [done|by apply Qclt_not_le]|].
  split; [by exists g|]. by exists cash, sti, std, ltd.
Qed.

Lemma ocf_valuation_value_only_for_valid_data_witness :
  length ((λ t, Q2Qc 100 * (1 + ocf_growth (Q2Qc 0.10) (Q2Qc 0.05) (Q2Qc 0.04) t) ^ t)
            <$> seq 1 20) = 20%nat ∧
  1 + Q2Qc 0.08 ≠ 0.
Proof.
  assert (calculate_ocf_based_intrinsic_value (Returned info_sample) (Q2Qc 0.08)
          = ([], Returned (Some (Q2Qc 150.83,
               (λ t, Q2Qc 100 * (1 + ocf_growth (Q2Qc 0.10) (Q2Qc 0.05) (Q2Qc 0.04) t) ^ t)
                 <$> seq 1 20,
               (λ t, Q2Qc 100 * (1 + ocf_growth (Q2Qc 0.10) (Q2Qc 0.05) (Q2Qc 0.04) t) ^ t
                     * / (Q2Qc 1.08) ^ t) <$> seq 1 20)))) as Hret
    by (vm_compute; reflexivity).
  destruct (ocf_valuation_value_only_for_valid_data _ _ _ _ _ _ Hret)
    as (_ & HP & _ & Hr & _).
  split; assumption.
Defined.

(** X8. The OCF-based valuation reads seven keys and nothing else: storing
    any value under another key, or removing another key, leaves its messages
    and its result unchanged. *)
Theorem ocf_valuation_ignores_other_keys (info : gmap string pyval) (r : Qc)
    (key : string) (v : pyval) :
  key ∉ ocf_keys →
  calculate_ocf_based_intrinsic_value (Returned (<[key := v]> info)) r
    = calculate_ocf_based_intrinsic_value (Returned info) r ∧
  calculate_ocf_based_intrinsic_value (Returned (delete key info)) r
    = calculate_ocf_based_intrinsic_value (Returned info) r.
Proof.
  intros Hkey. unfold ocf_keys in Hkey.
  rewrite !not_elem_of_cons in Hkey.
  destruct Hkey as (? & ? & ? & ? & ? & ? & ? & _).
  unfold calculate_ocf_based_intrinsic_value, ocf_valuation_body, ocf_final_value,
    dict_get.
  rewrite !bind_fetch_returned.
  split.
  - by rewrite !lookup_insert_ne by done.
  - by rewrite !lookup_delete_ne by done.
Qed.

Lemma ocf_valuation_ignores_other_keys_witness :
  calculate_ocf_based_intrinsic_value
    (Returned (<["beta" := VStr "high"]> info_sample)) (Q2Qc 0.08)
    = calculate_ocf_based_intrinsic_value (Returned info_sample) (Q2Qc 0.08) ∧
  calculate_ocf_based_intrinsic_value
    (Returned (delete "beta" info_sample)) (Q2Qc 0.08)
    = calculate_ocf_based_intrinsic_value (Returned info_sample) (Q2Qc 0.08).
Proof.
  apply (ocf_valuation_ignores_other_keys info_sample (Q2Qc 0.08) "beta" (VStr "high")).
  unfold ocf_keys. rewrite !not_elem_of_cons. repeat split; try discriminate.
  apply not_elem_of_nil.
Defined.

(** ** Bounds on the projected cash flows *)

Lemma Qcpower_positive (x : Qc) (n : nat) : 0 < x → 0 < x ^ n.
Proof.
  intros Hx. induction n as [|n IH]; [done|].
  change (x ^ S n) with (x * x ^ n). by apply Qcmult_pos_pos.
Qed.

Lemma Qcpower_at_least_one (x : Qc) (n : nat) : 1 ≤ x → 1 ≤ x ^ n.
Proof.
  intros Hx. induction n as [|n IH]; [done|].
  change (x ^ S n) with (x * x ^ n).
  apply Qcle_trans with (x * 1).
  - by rewrite Qcmult_1_r.
  - apply Qcmult_le_mono_pos_l; [|done]. by apply Qclt_le_trans with 1.
Qed.

Lemma Qcinv_at_most_one (x : Qc) : 1 ≤ x → / x ≤ 1.
Proof.
  intros Hx. assert (0 < x) as Hpos by by apply Qclt_le_trans with 1.
  apply (Qcmult_le_mono_pos_r _ _ x Hpos).
  rewrite Qcmult_inv_l by by apply Qclt_nonzero. by rewrite Qcmult_1_l.
Qed.

Lemma ocf_growth_base_positive (g : Qc) (t : nat) :
  0 ≤ g → 0 < 1 + ocf_growth g (g / 2) TERMINAL_GROWTH_RATE t.
Proof.
  intros Hg. unfold ocf_growth. repeat case_decide.
  - by apply Qcplus_pos_nonneg.
  - apply Qcplus_pos_nonneg; [done|].
    unfold Qcdiv. replace (0 : Qc) with (0 * / 2) by ring.
    by apply Qcmult_le_mono_pos_r.
  - done.
Qed.

(** X9. When the OCF-based valuation returns its two lists for a strictly
    positive operating cash flow, a growth entry that is not negative and a
    discount rate between 0 and 0.15 (the slider's upper end), then in every
    year the projected value is strictly positive and the discounted value
    lies between 0 and the projected value: discounting never increases a cash
    flow and never makes it negative. *)
Theorem ocf_projection_bounds (info : gmap string pyval) (ocf g r : Qc)
    (w : list ui_msg) (value : Qc) (projected discounted : list Qc) :
  calculate_ocf_based_intrinsic_value (Returned info) r
    = (w, Returned (Some (value, projected, discounted))) →
  info !! "operatingCashflow" = Some (VNum ocf) → 0 < ocf →
  dict_get info "earningsQuarterlyGrowth" (VNum (Q2Qc 0.10)) = VNum g → 0 ≤ g →
  0 ≤ r → r ≤ Q2Qc 0.15 →
  Forall2 (λ d p, 0 ≤ d ∧ d ≤ p ∧ 0 < p) discounted projected.
Proof.
  intros Hret Hocf Hocf_pos Hg Hg_pos Hr _.
  destruct (ocf_valuation_inversion _ _ _ _ _ _ Hret)
    as (info' & ocf' & shares & g' & cash & sti & std & ltd & [= <-] & Hocf' & _
        & _ & _ & Hg' & _ & _ & _ & _ & _ & _ & -> & -> & _).
  rewrite Hg in Hg'. injection Hg' as <-.
  rewrite Hocf in Hocf'. injection Hocf' as <-.
  apply Forall2_fmap, Forall2_same_length_lookup_2; [done|].
  intros i t t' Ht Ht'. rewrite Ht in Ht'. injection Ht' as <-. simpl.
  set (p := ocf * (1 + ocf_growth g (g / 2) TERMINAL_GROWTH_RATE t) ^ t).
  assert (0 < p) as Hp.
  { apply Qcmult_pos_pos; [done|].
    by apply Qcpower_positive, ocf_growth_base_positive. }
  assert (1 ≤ (1 + r) ^ t) as Hpow.
  { apply Qcpower_at_least_one.
    rewrite <- (Qcplus_0_r 1) at 1. by apply Qcplus_le_mono_l. }
  split; [|split; [|done]].
  - apply Qclt_le_weak, Qcmult_pos_pos; [done|].
    by apply Qcinv_pos, Qclt_le_trans with 1.
  - rewrite <- (Qcmult_1_r p) at 2.
    apply Qcmult_le_mono_pos_l; [done|]. by apply Qcinv_at_most_one.
Qed.

Lemma ocf_projection_bounds_witness :
  Forall2 (λ d p, 0 ≤ d ∧ d ≤ p ∧ 0 < p)
    ((λ t, Q2Qc 100 * (1 + ocf_growth (Q2Qc 0.10) (Q2Qc 0.05) (Q2Qc 0.04) t) ^ t
           * / (Q2Qc 1.08) ^ t) <$> seq 1 20)
    ((λ t, Q2Qc 100 * (1 + ocf_growth (Q2Qc 0.10) (Q2Qc 0.05) (Q2Qc 0.04) t) ^ t)
       <$> seq 1 20).
Proof.
  apply (ocf_projection_bounds info_sample (Q2Qc 100) (Q2Qc 0.10) (Q2Qc 0.08) []
           (Q2Qc 150.83)).
  - vm_compute. reflexivity.
  - reflexivity.
  - reflexivity.
  - reflexivity.
  - by vm_compute.
  - by vm_compute.
  - by vm_compute.
Defined.

(** ** The data preview *)

(** X10. When the provider answers, [preview_data] never raises: it shows
    the subheader and the table and returns the table's rows, six metrics in
    a fixed order, each the provider's raw entry, an absent entry being [None]
    except for the capital expenditures, which default to 0.  Whenever the
    OCF-based valuation of the same answer returns a value, the rows of the
    operating cash flow and of the share count hold numbers that fail the
    test [<= 0] of line 110. *)
Theorem preview_data_rows (info : gmap string pyval) :
  ∃ data,
    preview_data (Returned info)
      = ([StSubheader "Data Preview"; StWriteTable ["Metric"; "Value"]%string data],
         Returned data) ∧
    data.*1 = ["EPS (ttm)"; "Net Income to Common"; "Operating Cash Flow";
               "Capital Expenditures"; "Shares Outstanding"; "Beta"]%string ∧
    data.*2 = [default VNone (info !! "trailingEps");
               default VNone (info !! "netIncomeToCommon");
               default VNone (info !! "operatingCashflow");
               default (VNum 0) (info !! "capitalExpenditures");
               default VNone (info !! "sharesOutstanding");
               default VNone (info !! "beta")] ∧
    (∀ r w value projected discounted,
       calculate_ocf_based_intrinsic_value (Returned info) r
         = (w, Returned (Some (value, projected, discounted))) →
       ∃ ocf shares,
         data !! 2%nat = Some ("Operating Cash Flow"%string, VNum ocf) ∧ ¬ ocf ≤ 0 ∧
         data !! 4%nat = Some ("Shares Outstanding"%string, VNum shares) ∧
         ¬ shares ≤ 0).
Proof.
  eexists. split; [reflexivity|]. split; [reflexivity|]. split; [reflexivity|].
  intros r w value projected discounted Hret.
  destruct (ocf_valuation_inversion _ _ _ _ _ _ Hret)
    as (info' & ocf & shares & g & cash & sti & std & ltd & [= <-] & Hocf & Hocf_pos
        & Hsh & Hsh_pos & _).
  exists ocf, shares. simpl. unfold dict_get. rewrite Hocf, Hsh.
  repeat split; by apply Qclt_not_le.
Qed.

Lemma preview_data_rows_witness :
  ∃ data,
    preview_data (Returned info_sample)
      = ([StSubheader "Data Preview"; StWriteTable ["Metric"; "Value"]%string data],
         Returned data) ∧
    data.*2 = [VNone; VNone; VNum (Q2Qc 100); VNum 0; VNum (Q2Qc 10); VNone] ∧
    ∃ ocf shares,
      data !! 2%nat = Some ("Operating Cash Flow"%string, VNum ocf) ∧ ¬ ocf ≤ 0 ∧
      data !! 4%nat = Some ("Shares Outstanding"%string, VNum shares) ∧ ¬ shares ≤ 0.
Proof.
  destruct (preview_data_rows info_sample) as (data & Hdata & _ & Hvalues & Hpos).
  exists data. split; [exact Hdata|]. split; [rewrite Hvalues; reflexivity|].
  apply (Hpos (Q2Qc 0.08) [] (Q2Qc 150.83)
           ((λ t, Q2Qc 100 * (1 + ocf_growth (Q2Qc 0.10) (Q2Qc 0.05) (Q2Qc 0.04) t) ^ t)
              <$> seq 1 20)
           ((λ t, Q2Qc 100 * (1 + ocf_growth (Q2Qc 0.10) (Q2Qc 0.05) (Q2Qc 0.04) t) ^ t
                  * / (Q2Qc 1.08) ^ t) <$> seq 1 20)).
  vm_compute. reflexivity.
Defined.

(** ** Failure of the provider *)

(** X13. When the provider fails with an exception [e]: the growth resolver
    answers 0.10 as the default; the derived discount rate is that of a beta
    of 1; the EPS-based valuation warns that the EPS is unavailable and the
    OCF-based valuation reports [e], both returning [None]; only
    [preview_data], which has no [try], lets [e] through, having shown
    nothing. *)
Theorem provider_failure (e : exn) (r g : Qc) :
  get_growth_rate (Raised e) = ([], Returned (VNum (Q2Qc 0.10), "Default"%string)) ∧
  get_eps (Raised e) = ([], Returned (VNone, "Unavailable"%string)) ∧
  calculated_discount_rate (Raised e)
    = ([], Returned (RISK_FREE_RATE + 1 * MARKET_RISK_PREMIUM)) ∧
  calculate_eps_valuation (Raised e) r g
    = ([StWarning "EPS unavailable"], Returned None) ∧
  calculate_ocf_based_intrinsic_value (Raised e) r
    = ([StError "OCF-based valuation failed" e], Returned None) ∧
  preview_data (Raised e) = ([], Raised e).
Proof. repeat split. Qed.
